(** * Verification of the JTMD extraction core of [jpx_automated_pipeline.py]

    The development embeds the class [AdaptiveJTMDExtractor]: its three
    constant tables, the cell formatter, the bounded-offset balance search,
    the per-sheet extraction, the period key derivation, the per-file
    processing, the dataset merge of [run], the data and metadata tables and
    the archive. Of the rest of the file it embeds [safe_print] and, of
    [JPXDownloader], the month table, the download log and the control flow
    of [run_download], the browser being given by what each category visit
    comes to.

    Modelling conventions.
    - A Python [str] is a [string]; a character is a code point below 256
      (Latin-1), which covers every literal of the program.
    - A Python [dict] whose iteration order is observable (the three tables of
      [__init__]) is an association list in literal order; a [dict] that is
      only read by key ([extracted_data], [all_data]) is a [gmap].
    - An exception is a value of [exn] carried by [result]; [try]/[except] is a
      match on it.
    - [datetime.now()] is an explicit argument, a [Clock] holding the
      formatted readings a run uses.
    - [sheet_type] is a [str] in the code and a [string] here; it only ever
      holds ['ETF'] or ['REIT'], the two values of [AssetType], and the
      properties are stated for these. *)

From Stdlib Require Import ZArith Ascii String DecimalString.
From stdpp Require Import base option list gmap strings sorting.

Local Open Scope Z_scope.
Local Open Scope nat_scope.

(** ** Exceptions *)

(** [OtherError] stands for any exception that is neither of the first two. *)
Inductive exn := IndexError | KeyError | OtherError.

Inductive result (A : Type) :=
  | Ok (a : A)
  | Raise (e : exn).
Arguments Ok {A} a.
Arguments Raise {A} e.

Definition rbind {A B} (r : result A) (k : A → result B) : result B :=
  match r with
  | Ok a => k a
  | Raise e => Raise e
  end.

Notation "x ←r r ; k" := (rbind r (λ x, k))
  (at level 20, r at level 100, k at level 200, only parsing, right associativity).

(** [l[i]] for a non-negative index [i]: [IndexError] out of range. *)
Definition getitem {A} (l : list A) (i : nat) : result A :=
  match l !! i with
  | Some x => Ok x
  | None => Raise IndexError
  end.

(** [d[k]] on a dict given by its items: [KeyError] when the key is absent. *)
Fixpoint dict_get {V} (d : list (string * V)) (k : string) : option V :=
  match d with
  | [] => None
  | (k', v) :: d' => if String.eqb k' k then Some v else dict_get d' k
  end.

Definition dict_getitem {V} (d : list (string * V)) (k : string) : result V :=
  match dict_get d k with
  | Some v => Ok v
  | None => Raise KeyError
  end.

Definition keys {V} (d : list (string * V)) : list string := d.*1.
Definition values {V} (d : list (string * V)) : list V := d.*2.

(** ** String builtins *)

Module PyStr.

Definition code (c : ascii) : nat := nat_of_ascii c.

(** [str.isspace] on one character, for code points below 256. *)
Definition is_space (c : ascii) : bool :=
  let n := code c in
  ((9 <=? n) && (n <=? 13)) || ((28 <=? n) && (n <=? 32))
  || (n =? 133) || (n =? 160).

(** [\d] of [re] on a [str] pattern, for code points below 256. *)
Definition is_digit (c : ascii) : bool :=
  let n := code c in (48 <=? n) && (n <=? 57).

(** [str.lower] on one character: A-Z and the Latin-1 capitals. *)
Definition lower_char (c : ascii) : ascii :=
  let n := code c in
  if ((65 <=? n) && (n <=? 90))
     || ((192 <=? n) && (n <=? 222) && negb (n =? 215))
  then ascii_of_nat (n + 32) else c.

(** [str.upper] on one character: a-z and the Latin-1 small letters whose
    capital is one character below 256; the three others (code points 181,
    223 and 255) are left as they are. The program applies [upper] to
    ['ETF'] and ['REIT'] only. *)
Definition upper_char (c : ascii) : ascii :=
  let n := code c in
  if ((97 <=? n) && (n <=? 122))
     || ((224 <=? n) && (n <=? 254) && negb (n =? 247))
  then ascii_of_nat (n - 32) else c.

Fixpoint map_chars (f : ascii → ascii) (s : string) : string :=
  match s with
  | EmptyString => EmptyString
  | String c s' => String (f c) (map_chars f s')
  end.

Definition lower : string → string := map_chars lower_char.
Definition upper : string → string := map_chars upper_char.

Fixpoint lstrip (s : string) : string :=
  match s with
  | EmptyString => EmptyString
  | String c s' => if is_space c then lstrip s' else s
  end.

Fixpoint rstrip (s : string) : string :=
  match s with
  | EmptyString => EmptyString
  | String c s' =>
      match rstrip s' with
      | EmptyString => if is_space c then EmptyString else String c EmptyString
      | t => String c t
      end
  end.

Definition strip (s : string) : string := rstrip (lstrip s).

(** [s.startswith(p)] *)
Definition startswith (s p : string) : bool := String.prefix p s.

(** [needle in s] *)
Fixpoint contains (needle s : string) : bool :=
  String.prefix needle s ||
  match s with
  | EmptyString => false
  | String _ s' => contains needle s'
  end.

(** Truth value of a [str]. *)
Definition truthy (s : string) : bool :=
  match s with
  | EmptyString => false
  | String _ _ => true
  end.

(** [str(n)] for an [int]. *)
Definition of_int (n : Z) : string := NilZero.string_of_int (Z.to_int n).

End PyStr.

(** ** Cells and grids *)

(** A raw cell of [df.values.tolist()]: a missing value ([NaN], [None],
    [NaT]), a text, an integer, or any other scalar (float, date, boolean)
    carried with the text [str] gives for it. *)
Inductive Cell :=
  | CNaN
  | CStr (s : string)
  | CInt (n : Z)
  | COther (text : string).

Abbreviation Grid := (list (list Cell)).

(** [pd.isna(value)] *)
Definition isna (value : Cell) : bool :=
  match value with
  | CNaN => true
  | _ => false
  end.

(** [value in [None, '']] *)
Definition in_none_or_empty (value : Cell) : bool :=
  match value with
  | CStr EmptyString => true
  | _ => false
  end.

(** [str(value)] *)
Definition py_str (value : Cell) : string :=
  match value with
  | CNaN => "nan"
  | CStr s => s
  | CInt n => PyStr.of_int n
  | COther text => text
  end.

Definition _preserve_number_formatting (value : Cell) : string :=
  if isna value || in_none_or_empty value then ""
  else
    let str_value := PyStr.strip (py_str value) in
    str_value.

(** ** The constant tables of [__init__] *)

Record category_info := { base_row : nat; search_offsets : list nat }.
Record coords := { row : nat; col : nat }.

Definition _initialize_column_mapping : list (string * string) := [
    ("JTMD.ETF.BAL.PROP.M", "ETF, Balance, Proprietary");
    ("JTMD.ETF.BAL.BROKER.M", "ETF, Balance, Brokerage");
    ("JTMD.ETF.BAL.TOT.M", "ETF, Balance, Total");
    ("JTMD.ETF.BAL.INST.M", "ETF, Balance, Institutions");
    ("JTMD.ETF.BAL.INDIV.M", "ETF, Balance, Individuals");
    ("JTMD.ETF.BAL.FOR.M", "ETF, Balance, Foreigners");
    ("JTMD.ETF.BAL.SECCOS.M", "ETF, Balance, Securities Cos.");
    ("JTMD.ETF.BAL.INVTRUST.M", "ETF, Balance, Investment Trusts");
    ("JTMD.ETF.BAL.BUSCORP.M", "ETF, Balance, Business Cos.");
    ("JTMD.ETF.BAL.OTHINST.M", "ETF, Balance, Other Cos.");
    ("JTMD.ETF.BAL.INSTFIN.M", "ETF, Balance, Financial Institutions");
    ("JTMD.ETF.BAL.INS.M", "ETF, Balance, Life/Non-Life Insurance");
    ("JTMD.ETF.BAL.BK.M", "ETF, Balance, Banks");
    ("JTMD.ETF.BAL.OTHERFIN.M", "ETF, Balance, Other Financials");
    ("JTMD.ETF.SAL.PROP.M", "ETF, Sales, Proprietary");
    ("JTMD.ETF.SAL.BROKER.M", "ETF, Sales, Brokerage");
    ("JTMD.ETF.SAL.TOT.M", "ETF, Sales, Total");
    ("JTMD.ETF.SAL.INST.M", "ETF, Sales, Institutions");
    ("JTMD.ETF.SAL.INDIV.M", "ETF, Sales, Individuals");
    ("JTMD.ETF.SAL.FOR.M", "ETF, Sales, Foreigners");
    ("JTMD.ETF.SAL.SECCOS.M", "ETF, Sales, Securities Cos.");
    ("JTMD.ETF.SAL.INVTRUST.M", "ETF, Sales, Investment Trusts");
    ("JTMD.ETF.SAL.BUSCORP.M", "ETF, Sales, Business Cos.");
    ("JTMD.ETF.SAL.OTHINST.M", "ETF, Sales, Other Cos.");
    ("JTMD.ETF.SAL.INSTFIN.M", "ETF, Sales, Financial Institutions");
    ("JTMD.ETF.SAL.INS.M", "ETF, Sales, Life/Non-Life Insurance");
    ("JTMD.ETF.SAL.BK.M", "ETF, Sales, Banks");
    ("JTMD.ETF.SAL.OTHERFIN.M", "ETF, Sales, Other Financials");
    ("JTMD.ETF.PURCH.PROP.M", "ETF, Purchases, Proprietary");
    ("JTMD.ETF.PURCH.BROKER.M", "ETF, Purchases, Brokerage");
    ("JTMD.ETF.PURCH.TOT.M", "ETF, Purchases, Total");
    ("JTMD.ETF.PURCH.INST.M", "ETF, Purchases, Institutions");
    ("JTMD.ETF.PURCH.INDIV.M", "ETF, Purchases, Individuals");
    ("JTMD.ETF.PURCH.FOR.M", "ETF, Purchases, Foreigners");
    ("JTMD.ETF.PURCH.SECCOS.M", "ETF, Purchases, Securities Cos.");
    ("JTMD.ETF.PURCH.INVTRUST.M", "ETF, Purchases, Investment Trusts");
    ("JTMD.ETF.PURCH.BUSCORP.M", "ETF, Purchases, Business Cos.");
    ("JTMD.ETF.PURCH.OTHINST.M", "ETF, Purchases, Other Cos.");
    ("JTMD.ETF.PURCH.INSTFIN.M", "ETF, Purchases, Financial Institutions");
    ("JTMD.ETF.PURCH.INS.M", "ETF, Purchases, Life/Non-Life Insurance");
    ("JTMD.ETF.PURCH.BK.M", "ETF, Purchases, Banks");
    ("JTMD.ETF.PURCH.OTHERFIN.M", "ETF, Purchases, Other Financials");
    ("JTMD.REIT.BAL.PROP.M", "REIT, Balance, Proprietary");
    ("JTMD.REIT.BAL.BROKER.M", "REIT, Balance, Brokerage");
    ("JTMD.REIT.BAL.TOT.M", "REIT, Balance, Total");
    ("JTMD.REIT.BAL.INST.M", "REIT, Balance, Institutions");
    ("JTMD.REIT.BAL.INDIV.M", "REIT, Balance, Individuals");
    ("JTMD.REIT.BAL.FOR.M", "REIT, Balance, Foreigners");
    ("JTMD.REIT.BAL.SECCOS.M", "REIT, Balance, Securities Cos.");
    ("JTMD.REIT.BAL.INVTRUST.M", "REIT, Balance, Investment Trusts");
    ("JTMD.REIT.BAL.BUSCORP.M", "REIT, Balance, Business Cos.");
    ("JTMD.REIT.BAL.OTHINST.M", "REIT, Balance, Other Cos.");
    ("JTMD.REIT.BAL.INSTFIN.M", "REIT, Balance, Financial Institutions");
    ("JTMD.REIT.BAL.INS.M", "REIT, Balance, Life/Non-Life Insurance");
    ("JTMD.REIT.BAL.BK.M", "REIT, Balance, Banks");
    ("JTMD.REIT.BAL.OTHERFIN.M", "REIT, Balance, Other Financials");
    ("JTMD.REIT.SAL.PROP.M", "REIT, Sales, Proprietary");
    ("JTMD.REIT.SAL.BROKER.M", "REIT, Sales, Brokerage");
    ("JTMD.REIT.SAL.TOT.M", "REIT, Sales, Total");
    ("JTMD.REIT.SAL.INST.M", "REIT, Sales, Institutions");
    ("JTMD.REIT.SAL.INDIV.M", "REIT, Sales, Individuals");
    ("JTMD.REIT.SAL.FOR.M", "REIT, Sales, Foreigners");
    ("JTMD.REIT.SAL.SECCOS.M", "REIT, Sales, Securities Cos.");
    ("JTMD.REIT.SAL.INVTRUST.M", "REIT, Sales, Investment Trusts");
    ("JTMD.REIT.SAL.BUSCORP.M", "REIT, Sales, Business Cos.");
    ("JTMD.REIT.SAL.OTHINST.M", "REIT, Sales, Other Cos.");
    ("JTMD.REIT.SAL.INSTFIN.M", "REIT, Sales, Financial Institutions");
    ("JTMD.REIT.SAL.INS.M", "REIT, Sales, Life/Non-Life Insurance");
    ("JTMD.REIT.SAL.BK.M", "REIT, Sales, Banks");
    ("JTMD.REIT.SAL.OTHERFIN.M", "REIT, Sales, Other Financials");
    ("JTMD.REIT.PURCH.PROP.M", "REIT, Purchases, Proprietary");
    ("JTMD.REIT.PURCH.BROKER.M", "REIT, Purchases, Brokerage");
    ("JTMD.REIT.PURCH.TOT.M", "REIT, Purchases, Total");
    ("JTMD.REIT.PURCH.INST.M", "REIT, Purchases, Institutions");
    ("JTMD.REIT.PURCH.INDIV.M", "REIT, Purchases, Individuals");
    ("JTMD.REIT.PURCH.FOR.M", "REIT, Purchases, Foreigners");
    ("JTMD.REIT.PURCH.SECCOS.M", "REIT, Purchases, Securities Cos.");
    ("JTMD.REIT.PURCH.INVTRUST.M", "REIT, Purchases, Investment Trusts");
    ("JTMD.REIT.PURCH.BUSCORP.M", "REIT, Purchases, Business Cos.");
    ("JTMD.REIT.PURCH.OTHINST.M", "REIT, Purchases, Other Cos.");
    ("JTMD.REIT.PURCH.INSTFIN.M", "REIT, Purchases, Financial Institutions");
    ("JTMD.REIT.PURCH.INS.M", "REIT, Purchases, Life/Non-Life Insurance");
    ("JTMD.REIT.PURCH.BK.M", "REIT, Purchases, Banks");
    ("JTMD.REIT.PURCH.OTHERFIN.M", "REIT, Purchases, Other Financials")
  ].

Definition _initialize_category_structure : list (string * category_info) := [
    ("PROP", {| base_row := 13; search_offsets := [0; 1; 2] |});
    ("BROKER", {| base_row := 16; search_offsets := [0; 1; 2] |});
    ("TOT", {| base_row := 19; search_offsets := [0; 1; 2] |});
    ("INST", {| base_row := 24; search_offsets := [0; 1; 2] |});
    ("INDIV", {| base_row := 27; search_offsets := [0; 1; 2] |});
    ("FOR", {| base_row := 30; search_offsets := [0; 1; 2] |});
    ("SECCOS", {| base_row := 33; search_offsets := [0; 1; 2] |});
    ("INVTRUST", {| base_row := 38; search_offsets := [0; 1; 2] |});
    ("BUSCORP", {| base_row := 41; search_offsets := [0; 1; 2] |});
    ("OTHINST", {| base_row := 44; search_offsets := [0; 1; 2] |});
    ("INSTFIN", {| base_row := 47; search_offsets := [0; 1; 2] |});
    ("INS", {| base_row := 52; search_offsets := [0; 1; 2] |});
    ("BK", {| base_row := 55; search_offsets := [0; 1; 2] |});
    ("OTHERFIN", {| base_row := 58; search_offsets := [0; 1; 2] |})
  ].

Definition _initialize_fixed_mappings : list (string * coords) := [
    ("JTMD.ETF.SAL.PROP.M", {| row := 13; col := 4 |});
    ("JTMD.ETF.PURCH.PROP.M", {| row := 14; col := 4 |});
    ("JTMD.ETF.SAL.BROKER.M", {| row := 16; col := 4 |});
    ("JTMD.ETF.PURCH.BROKER.M", {| row := 17; col := 4 |});
    ("JTMD.ETF.SAL.TOT.M", {| row := 19; col := 4 |});
    ("JTMD.ETF.PURCH.TOT.M", {| row := 20; col := 4 |});
    ("JTMD.ETF.SAL.INST.M", {| row := 24; col := 4 |});
    ("JTMD.ETF.PURCH.INST.M", {| row := 25; col := 4 |});
    ("JTMD.ETF.SAL.INDIV.M", {| row := 27; col := 4 |});
    ("JTMD.ETF.PURCH.INDIV.M", {| row := 28; col := 4 |});
    ("JTMD.ETF.SAL.FOR.M", {| row := 30; col := 4 |});
    ("JTMD.ETF.PURCH.FOR.M", {| row := 31; col := 4 |});
    ("JTMD.ETF.SAL.SECCOS.M", {| row := 33; col := 4 |});
    ("JTMD.ETF.PURCH.SECCOS.M", {| row := 34; col := 4 |});
    ("JTMD.ETF.SAL.INVTRUST.M", {| row := 38; col := 4 |});
    ("JTMD.ETF.PURCH.INVTRUST.M", {| row := 39; col := 4 |});
    ("JTMD.ETF.SAL.BUSCORP.M", {| row := 41; col := 4 |});
    ("JTMD.ETF.PURCH.BUSCORP.M", {| row := 42; col := 4 |});
    ("JTMD.ETF.SAL.OTHINST.M", {| row := 44; col := 4 |});
    ("JTMD.ETF.PURCH.OTHINST.M", {| row := 45; col := 4 |});
    ("JTMD.ETF.SAL.INSTFIN.M", {| row := 47; col := 4 |});
    ("JTMD.ETF.PURCH.INSTFIN.M", {| row := 48; col := 4 |});
    ("JTMD.ETF.SAL.INS.M", {| row := 52; col := 4 |});
    ("JTMD.ETF.PURCH.INS.M", {| row := 53; col := 4 |});
    ("JTMD.ETF.SAL.BK.M", {| row := 55; col := 4 |});
    ("JTMD.ETF.PURCH.BK.M", {| row := 56; col := 4 |});
    ("JTMD.ETF.SAL.OTHERFIN.M", {| row := 58; col := 4 |});
    ("JTMD.ETF.PURCH.OTHERFIN.M", {| row := 59; col := 4 |});
    ("JTMD.REIT.SAL.PROP.M", {| row := 13; col := 4 |});
    ("JTMD.REIT.PURCH.PROP.M", {| row := 14; col := 4 |});
    ("JTMD.REIT.SAL.BROKER.M", {| row := 16; col := 4 |});
    ("JTMD.REIT.PURCH.BROKER.M", {| row := 17; col := 4 |});
    ("JTMD.REIT.SAL.TOT.M", {| row := 19; col := 4 |});
    ("JTMD.REIT.PURCH.TOT.M", {| row := 20; col := 4 |});
    ("JTMD.REIT.SAL.INST.M", {| row := 24; col := 4 |});
    ("JTMD.REIT.PURCH.INST.M", {| row := 25; col := 4 |});
    ("JTMD.REIT.SAL.INDIV.M", {| row := 27; col := 4 |});
    ("JTMD.REIT.PURCH.INDIV.M", {| row := 28; col := 4 |});
    ("JTMD.REIT.SAL.FOR.M", {| row := 30; col := 4 |});
    ("JTMD.REIT.PURCH.FOR.M", {| row := 31; col := 4 |});
    ("JTMD.REIT.SAL.SECCOS.M", {| row := 33; col := 4 |});
    ("JTMD.REIT.PURCH.SECCOS.M", {| row := 34; col := 4 |});
    ("JTMD.REIT.SAL.INVTRUST.M", {| row := 38; col := 4 |});
    ("JTMD.REIT.PURCH.INVTRUST.M", {| row := 39; col := 4 |});
    ("JTMD.REIT.SAL.BUSCORP.M", {| row := 41; col := 4 |});
    ("JTMD.REIT.PURCH.BUSCORP.M", {| row := 42; col := 4 |});
    ("JTMD.REIT.SAL.OTHINST.M", {| row := 44; col := 4 |});
    ("JTMD.REIT.PURCH.OTHINST.M", {| row := 45; col := 4 |});
    ("JTMD.REIT.SAL.INSTFIN.M", {| row := 47; col := 4 |});
    ("JTMD.REIT.PURCH.INSTFIN.M", {| row := 48; col := 4 |});
    ("JTMD.REIT.SAL.INS.M", {| row := 52; col := 4 |});
    ("JTMD.REIT.PURCH.INS.M", {| row := 53; col := 4 |});
    ("JTMD.REIT.SAL.BK.M", {| row := 55; col := 4 |});
    ("JTMD.REIT.PURCH.BK.M", {| row := 56; col := 4 |});
    ("JTMD.REIT.SAL.OTHERFIN.M", {| row := 58; col := 4 |});
    ("JTMD.REIT.PURCH.OTHERFIN.M", {| row := 59; col := 4 |})
  ].

Definition column_mapping := _initialize_column_mapping.
Definition category_structure := _initialize_category_structure.
Definition fixed_mappings := _initialize_fixed_mappings.

(** ** CategoryBalanceResolver: [find_balance_in_category] *)

(** The body of the [try] for one offset: [Ok (Some _)] is the [return],
    [Ok None] falls through to the next offset. The second operand of [and]
    and the read of column G each index [data_rows] again. *)
Definition balance_try (data_rows : Grid) (balance_column_code : string)
    (test_row : nat) : result (option (string * string)) :=
  if test_row <? length data_rows then
    r ←r getitem data_rows test_row;
    if 6 <? length r then
      r' ←r getitem data_rows test_row;
      raw_value ←r getitem r' 6;
      let formatted_value := _preserve_number_formatting raw_value in
      if PyStr.truthy formatted_value
      then Ok (Some (balance_column_code, formatted_value))
      else Ok None
    else Ok None
  else Ok None.

(** [for offset in category_info['search_offsets']: try ... except IndexError:
    continue], then [return None]. *)
Fixpoint balance_search (data_rows : Grid) (balance_column_code : string)
    (base : nat) (offsets : list nat) : result (option (string * string)) :=
  match offsets with
  | [] => Ok None
  | offset :: rest =>
      let test_row := base + offset in
      match balance_try data_rows balance_column_code test_row with
      | Ok (Some found) => Ok (Some found)
      | Ok None => balance_search data_rows balance_column_code base rest
      | Raise IndexError => balance_search data_rows balance_column_code base rest
      | Raise e => Raise e
      end
  end.

Definition balance_code (sheet_type category_key : string) : string :=
  "JTMD." +:+ PyStr.upper sheet_type +:+ ".BAL." +:+ category_key +:+ ".M".

Definition find_balance_in_category (data_rows : Grid)
    (category_key sheet_type : string) : result (option (string * string)) :=
  category_info ←r dict_getitem category_structure category_key;
  let balance_column_code := balance_code sheet_type category_key in
  balance_search data_rows balance_column_code
    (base_row category_info) (search_offsets category_info).

(** ** FixedFieldExtractor and [_extract_from_sheet] *)

Definition fixed_prefix (sheet_type : string) : string :=
  "JTMD." +:+ PyStr.upper sheet_type.

(** [{k: v for k, v in self.fixed_mappings.items() if k.startswith(prefix)}] *)
Definition relevant_mappings (sheet_type : string) : list (string * coords) :=
  List.filter (λ kv, PyStr.startswith kv.1 (fixed_prefix sheet_type))
    fixed_mappings.

(** One iteration of the fixed-coordinate loop, the [try] body. *)
Definition fixed_try (data_rows : Grid) (code : string) (c : coords)
    (extracted_data : gmap string string) : result (gmap string string) :=
  r ←r getitem data_rows (row c);
  raw_value ←r getitem r (col c);
  let formatted_value := _preserve_number_formatting raw_value in
  if PyStr.truthy formatted_value
  then Ok (<[code := formatted_value]> extracted_data)
  else Ok extracted_data.

Fixpoint fixed_loop (data_rows : Grid) (mappings : list (string * coords))
    (extracted_data : gmap string string) : result (gmap string string) :=
  match mappings with
  | [] => Ok extracted_data
  | (code, c) :: rest =>
      match fixed_try data_rows code c extracted_data with
      | Ok extracted_data' => fixed_loop data_rows rest extracted_data'
      | Raise IndexError => fixed_loop data_rows rest extracted_data
      | Raise e => Raise e
      end
  end.

(** [for category_key in self.category_structure.keys(): ...]; a non-empty
    tuple is true, [None] is false. *)
Fixpoint balance_loop (data_rows : Grid) (sheet_type : string)
    (category_keys : list string) (extracted_data : gmap string string)
    : result (gmap string string) :=
  match category_keys with
  | [] => Ok extracted_data
  | category_key :: rest =>
      res ←r find_balance_in_category data_rows category_key sheet_type;
      match res with
      | Some (code, value) =>
          balance_loop data_rows sheet_type rest (<[code := value]> extracted_data)
      | None => balance_loop data_rows sheet_type rest extracted_data
      end
  end.

(** [df] is given by its cell matrix, [df.values.tolist()]. *)
Definition _extract_from_sheet (df : Grid) (sheet_type : string)
    : result (gmap string string) :=
  let data_rows := df in
  let extracted_data : gmap string string := ∅ in
  extracted_data ←r fixed_loop data_rows (relevant_mappings sheet_type) extracted_data;
  extracted_data ←r balance_loop data_rows sheet_type (keys category_structure) extracted_data;
  Ok extracted_data.

(** ** PeriodKeyDeriver: [_extract_period_from_filename] *)

(** The pattern [m(\d{2})(\d{2})] anchored at the start of [s]; the two
    groups on success. *)
Definition match_here (s : string) : option (string * string) :=
  match s with
  | String c0 (String y1 (String y2 (String m1 (String m2 _)))) =>
      if Ascii.eqb c0 "m" && PyStr.is_digit y1 && PyStr.is_digit y2
         && PyStr.is_digit m1 && PyStr.is_digit m2
      then Some (String y1 (String y2 EmptyString),
                 String m1 (String m2 EmptyString))
      else None
  | _ => None
  end.

(** [re.search]: the match at the leftmost position where the pattern
    matches. *)
Fixpoint re_search (s : string) : option (string * string) :=
  match match_here s with
  | Some groups => Some groups
  | None =>
      match s with
      | EmptyString => None
      | String _ s' => re_search s'
      end
  end.

(** The readings of [datetime.now()] a run uses, already formatted. *)
Record Clock := {
  now_year_month : string;   (* strftime('%Y-%m') *)
  now_date_stamp : string;   (* strftime('%Y%m%d') *)
  now_iso : string           (* strftime('%Y-%m-%dT%H:%M:%S') *)
}.

Definition _extract_period_from_filename (now : Clock) (filename : string)
    : string :=
  match re_search (PyStr.lower filename) with
  | Some (year_suffix, month) => "20" +:+ year_suffix +:+ "-" +:+ month
  | None => now_year_month now
  end.

(** ** [process_excel_file] *)

(** [pd.read_excel(..., sheet_name=..., header=None)]: the grid of the sheet,
    or the exception raised while reading it. *)
Abbreviation Sheet := (result Grid).

(** [pd.ExcelFile(file_path)]: the sheets by name, or the exception raised
    while opening the file. *)
Abbreviation Workbook := (result (list (string * Sheet))).

Definition sheet_type_of (name : string) : string :=
  if PyStr.contains "etf" (PyStr.lower name) then "ETF" else "REIT".

Definition process_excel_file (now : Clock) (name : string) (wb : Workbook)
    : string * gmap string string :=
  let period := _extract_period_from_filename now name in
  let body : result (string * gmap string string) :=
    excel_file ←r wb;
    if negb (existsb (String.eqb "Value") (keys excel_file))
    then Ok (period, ∅)
    else
      df_value ←r default (Raise KeyError) (dict_get excel_file "Value");
      let sheet_type := sheet_type_of name in
      data ←r _extract_from_sheet df_value sheet_type;
      Ok (period, data) in
  match body with
  | Ok r => r
  | Raise _ => (period, ∅)
  end.

(** ** DatasetAccumulator: the loop body of [run] *)

(** [if period not in all_data: all_data[period] = {}] followed by
    [all_data[period].update(data)]; in a [dict.update] the argument's values
    replace the existing ones, which is the left-biased union. *)
Definition accumulate (all_data : gmap string (gmap string string))
    (period : string) (data : gmap string string)
    : result (gmap string (gmap string string)) :=
  let all_data :=
    match all_data !! period with
    | None => <[period := ∅]> all_data
    | Some _ => all_data
    end in
  match all_data !! period with
  | Some existing => Ok (<[period := data ∪ existing]> all_data)
  | None => Raise KeyError
  end.

Fixpoint run_loop (now : Clock) (excel_files : list (string * Workbook))
    (all_data : gmap string (gmap string string))
    : result (gmap string (gmap string string)) :=
  match excel_files with
  | [] => Ok all_data
  | (name, wb) :: rest =>
      let '(period, data) := process_excel_file now name wb in
      all_data ←r accumulate all_data period data;
      run_loop now rest all_data
  end.

(** ** OutputComposer *)

(** A table is the list of its rows, a row the list of its fields, before the
    CSV writer quotes them. *)
Abbreviation Table := (list (list string)).

Definition item_le (a b : string * gmap string string) : Prop :=
  String.le a.1 b.1.

Global Instance item_le_dec : RelDecision item_le.
Proof. intros a b. unfold item_le. apply _. Defined.

(** [sorted(all_data.items())]: the keys of a dict are distinct, so the tuples
    are ordered by their first component, compared as [str]. *)
Definition sorted_items (all_data : gmap string (gmap string string))
    : list (string * gmap string string) :=
  merge_sort item_le (map_to_list all_data).

(** [row = {'': period}; row.update({col: period_data.get(col, '') ...})] *)
Definition output_row (columns : list string) (period : string)
    (period_data : gmap string string) : gmap string string :=
  foldl (λ r col, <[col := default "" (period_data !! col)]> r)
        {[ "" := period ]} (tail columns).

(** A row of [df[columns]] as written by [to_csv]; a column the row dict
    lacks is [NaN], written as the empty field. *)
Definition render_row (columns : list string) (r : gmap string string)
    : list string :=
  map (λ c, default "" (r !! c)) columns.

Definition _create_output_csv (all_data : gmap string (gmap string string))
    (timestamp : string) : result (string * Table) :=
  let columns := "" :: keys column_mapping in
  let df_data :=
    map (λ '(period, period_data), output_row columns period period_data)
        (sorted_items all_data) in
  (* pd.DataFrame([]) has no columns: selecting [columns] raises KeyError *)
  match df_data with
  | [] => Raise KeyError
  | _ =>
      let df := map (render_row ("" :: keys column_mapping)) df_data in
      let header_df :=
        [ "" :: keys column_mapping; "" :: values column_mapping ] in
      let output_file := "JTMD_DATA_" +:+ timestamp +:+ ".csv" in
      Ok (output_file, header_df ++ df)
  end.

Definition metadata_header : list string :=
  [ "CODE"; "DESCRIPTION"; "UNIT"; "FREQUENCY"; "SOURCE"; "DATASET";
    "LAST_UPDATE"; "NEXT_RELEASE_DATE"; "DATA_TYPE"; "CATEGORY" ].

Definition _create_metadata_csv (now : Clock) (timestamp : string)
    : string * Table :=
  let metadata_rows :=
    map (λ '(code, desc),
           [ code; desc; "Thousand JPY"; "Monthly";
             "Japan Exchange Group (JPX)"; "JTMD"; now_iso now; "";
             "Numeric"; "Trading Statistics" ])
        column_mapping in
  ("JTMD_META_" +:+ timestamp +:+ ".csv", metadata_header :: metadata_rows).

(** The archive: its name and the names of its members, in order. *)
Definition _create_zip_archive (data_file metadata_file : string * Table)
    (timestamp : string) : string * list string :=
  ("JTMD_" +:+ timestamp +:+ ".zip", [ data_file.1; metadata_file.1 ]).

Record Artifacts := {
  data_file : string * Table;
  metadata_file : string * Table;
  zip_archive : string * list string
}.

Inductive Outcome :=
  | NoExcelFiles
  | NoDataExtracted
  | Completed (a : Artifacts)
  | Failed (e : exn).

(** [run]; [excel_files] is the result of the glob, each path with the
    workbook found there. *)
Definition run (now : Clock) (excel_files : list (string * Workbook))
    : Outcome :=
  match excel_files with
  | [] => NoExcelFiles
  | _ =>
      match run_loop now excel_files ∅ with
      | Raise e => Failed e
      | Ok all_data =>
          if decide (all_data = ∅) then NoDataExtracted
          else
            let timestamp := now_date_stamp now in
            match _create_output_csv all_data timestamp with
            | Raise e => Failed e
            | Ok data_file =>
                let metadata_file := _create_metadata_csv now timestamp in
                Completed {| data_file := data_file;
                             metadata_file := metadata_file;
                             zip_archive :=
                               _create_zip_archive data_file metadata_file
                                 timestamp |}
            end
      end
  end.

(** ** [safe_print] *)



(** ** JPXDownloader *)

Definition MONTH_ABBREVIATIONS : list (string * string) :=
  [ ("01", "Jan."); ("02", "Feb."); ("03", "Mar."); ("04", "Apr.");
    ("05", "May"); ("06", "Jun."); ("07", "Jul."); ("08", "Aug.");
    ("09", "Sep."); ("10", "Oct."); ("11", "Nov."); ("12", "Dec.") ].

(** The download log on disk is the JSON array of names it holds, [None] when
    the file does not exist. *)
Definition _load_download_log (log_file : option (list string)) : gset string :=
  match log_file with
  | Some names => list_to_set names
  | None => ∅
  end.

(** [json.dump(sorted(list(self.downloaded_files_log)), ...)]: the array
    written. *)
Definition _save_download_log (downloaded_files_log : gset string)
    : list string :=
  merge_sort String.le (elements downloaded_files_log).

Definition categories_to_process : list (string * string) :=
  [ ("ETFs", "etf_m"); ("REITs", "reit_m") ].

(** What the browser part of one pass of the category loop comes to: a
    [continue] before a link is found, an exception (of the browser, of the
    page parsing, of an index), or the link of the month. With the link come
    its file name, whether that file is on disk, and what [_download_file]
    does if called: [Ok true] after writing the file, [Ok false] on a
    [RequestException], another exception otherwise. *)
Inductive Visit :=
  | NoLink
  | Broken (e : exn)
  | Link (file_name : string) (on_disk : bool) (download : result bool).

(** The site as the downloader meets it: an exception before the loop, if
    any, and the visit of each category. *)
Record Site := {
  startup : option exn;
  visit : string → string → Visit
}.

Record DownloadState := {
  downloaded_files_log : gset string;
  files_downloaded_this_run : nat
}.

(** The tail of the loop body, from [if file_name in
    self.downloaded_files_log] on. *)
Definition download_part (file_name : string) (download : result bool)
    (st : DownloadState) : result DownloadState :=
  ok ←r download;
  if ok : bool
  then Ok {| downloaded_files_log := {[ file_name ]} ∪ downloaded_files_log st;
             files_downloaded_this_run := files_downloaded_this_run st + 1 |}
  else Ok st.

Definition visit_step (v : Visit) (st : DownloadState) : result DownloadState :=
  match v with
  | NoLink => Ok st
  | Broken e => Raise e
  | Link file_name on_disk download =>
      if decide (file_name ∈ downloaded_files_log st) then
        if negb on_disk then download_part file_name download st
        else Ok {| downloaded_files_log := downloaded_files_log st;
                   files_downloaded_this_run :=
                     files_downloaded_this_run st + 1 |}
      else download_part file_name download st
  end.

(** The category loop: the state reached, and the exception that ended the
    loop if one did. *)
Fixpoint download_loop (site : Site) (categories : list (string * string))
    (st : DownloadState) : DownloadState * option exn :=
  match categories with
  | [] => (st, None)
  | (category_name, file_filter) :: rest =>
      match visit_step (visit site category_name file_filter) st with
      | Ok st' => download_loop site rest st'
      | Raise e => (st, Some e)
      end
  end.

(** [JPXDownloader(config).run_download()]: the value returned and the log
    written by the [finally], [None] when the method returns before the
    [try]. *)
Definition run_download (target_month_num : string)
    (log_file : option (list string)) (site : Site)
    : bool * option (list string) :=
  let target_month_abbr := dict_get MONTH_ABBREVIATIONS target_month_num in
  let loaded_log := _load_download_log log_file in
  if negb (from_option PyStr.truthy false target_month_abbr) then (false, None)
  else
    let st0 := {| downloaded_files_log := loaded_log;
                  files_downloaded_this_run := 0 |} in
    let '(st, raised) :=
      match startup site with
      | Some e => (st0, Some e)
      | None => download_loop site categories_to_process st0
      end in
    let written := Some (_save_download_log (downloaded_files_log st)) in
    match raised with
    | Some _ => (false, written)
    | None => (0 <? files_downloaded_this_run st, written)
    end.

(** ** Specification-side vocabulary *)

(** The two values [sheet_type] takes in [process_excel_file]. *)
Inductive AssetType := ETF | REIT.

Definition asset_name (a : AssetType) : string :=
  match a with
  | ETF => "ETF"
  | REIT => "REIT"
  end.

(** The cell at a coordinate, [None] outside the grid. *)
Definition cell_at (g : Grid) (r c : nat) : option Cell :=
  g !! r ≫= (.!! c).

(** The formatted text found at column 6 of row [r]; empty outside the grid. *)
Definition probed (g : Grid) (r : nat) : string :=
  from_option _preserve_number_formatting "" (cell_at g r 6).

(** The first non-empty probe of a window, scanning [offsets] in order. *)
Fixpoint first_probe (g : Grid) (base : nat) (offsets : list nat)
    : option string :=
  match offsets with
  | [] => None
  | offset :: rest =>
      if PyStr.truthy (probed g (base + offset))
      then Some (probed g (base + offset))
      else first_probe g base rest
  end.

(** The value a fixed coordinate contributes, if any. *)
Definition fixed_value (g : Grid) (c : coords) : option string :=
  cell ← cell_at g (row c) (col c);
  let f := _preserve_number_formatting cell in
  if PyStr.truthy f then Some f else None.

(** [s] is empty or made of whitespace only. *)
Fixpoint all_space (s : string) : bool :=
  match s with
  | EmptyString => true
  | String c s' => PyStr.is_space c && all_space s'
  end.

(** A text whose first character, if any, is not whitespace. *)
Definition head_trimmed (s : string) : Prop :=
  match s with
  | EmptyString => True
  | String c _ => PyStr.is_space c = false
  end.

(** A cell that is missing, empty or made of whitespace only. *)
Definition blank (cell : Cell) : bool :=
  isna cell || all_space (py_str cell).

(** The value the balance loop over [category_keys] contributes for [code]:
    the window of the category whose balance code it is. *)
Definition balance_value (g : Grid) (sheet_type : string)
    (category_keys : list string) (code : string) : option string :=
  key ← List.find (λ k, String.eqb (balance_code sheet_type k) code)
          category_keys;
  info ← dict_get category_structure key;
  first_probe g (base_row info) (search_offsets info).

(** The codes of the two fixed-coordinate metrics of a category. *)
Definition sales_code (sheet_type category_key : string) : string :=
  "JTMD." +:+ PyStr.upper sheet_type +:+ ".SAL." +:+ category_key +:+ ".M".

Definition purchases_code (sheet_type category_key : string) : string :=
  "JTMD." +:+ PyStr.upper sheet_type +:+ ".PURCH." +:+ category_key +:+ ".M".

(** A period row of the data table: the period, then one field per catalog
    code in catalog order, empty where the period has no value. *)
Definition data_row (period : string) (period_data : gmap string string)
    : list string :=
  period :: map (λ code, default "" (period_data !! code)) (keys column_mapping).

(** The cells [_extract_from_sheet] may read for a sheet type. *)
Definition read_cells (sheet_type : string) : list (nat * nat) :=
  map (λ kv, (row kv.2, col kv.2)) (relevant_mappings sheet_type)
  ++ flat_map (λ kv, map (λ off, (base_row kv.2 + off, 6)) (search_offsets kv.2))
       category_structure.

(** The codes [_extract_from_sheet] may emit for a sheet type. *)
Definition codes_of (sheet_type : string) : list string :=
  keys (relevant_mappings sheet_type)
  ++ (balance_code sheet_type <$> keys category_structure).

(** A result map as extraction leaves it: codes of the catalog, values
    non-empty and trimmed. *)
Definition well_formed_result (data : gmap string string) : Prop :=
  map_Forall (λ code v, code ∈ keys column_mapping ∧ v ≠ "" ∧ PyStr.strip v = v)
    data.

Definition well_formed_dataset (all_data : gmap string (gmap string string))
    : Prop :=
  map_Forall (λ _ data, well_formed_result data) all_data.

(** The period key of a marker, and the marker read as the number YYMM. *)
Definition period_key (y1 y2 m1 m2 : ascii) : string :=
  "20" +:+ String y1 (String y2 "") +:+ "-" +:+ String m1 (String m2 "").

Definition digit_value (c : ascii) : nat := PyStr.code c - 48.

Definition marker_number (y1 y2 m1 m2 : ascii) : nat :=
  1000 * digit_value y1 + 100 * digit_value y2
  + 10 * digit_value m1 + digit_value m2.

(** The periods of a list of files. *)
Definition periods_of (now : Clock) (files : list (string * Workbook))
    : gset string :=
  list_to_set ((λ f, _extract_period_from_filename now f.1) <$> files).


(** No character is whitespace. *)
Fixpoint no_space (s : string) : bool :=
  match s with
  | EmptyString => true
  | String c s' => negb (PyStr.is_space c) && no_space s'
  end.


(** A visit that leaves the file of the month on disk: it was there, or the
    download wrote it. *)
Definition available (v : Visit) : Prop :=
  match v with
  | Link _ on_disk download => on_disk = true ∨ download = Ok true
  | _ => False
  end.

Global Instance Cell_eq_dec : EqDecision Cell.
Proof. solve_decision. Defined.

(** ** Sample inputs *)

(** A short sheet: rows 0-13 have no cells, row 14 holds whitespace in
    column G, row 15 holds a padded figure. *)
Definition sample_grid : Grid :=
  replicate 14 [] ++
  [ [CNaN; CNaN; CNaN; CNaN; CInt 5; CNaN; CStr "  "];
    [CNaN; CNaN; CNaN; CNaN; COther "7.5"; CNaN; CStr " 12,3 "] ].

Definition sample_clock : Clock :=
  {| now_year_month := "2026-11"; now_date_stamp := "20261104";
     now_iso := "2026-11-04T09:00:00" |}.

(** A readable ETF workbook for March 2024 and an unreadable REIT one. *)
Definition sample_files : list (string * Workbook) :=
  [ ("etf_m2403.xls", Ok [("Value", Ok sample_grid)]);
    ("reit_m2312.xls", Raise OtherError) ].

Definition sample_dataset : gmap string (gmap string string) :=
  {[ "2024-03" := {[ "JTMD.ETF.BAL.PROP.M" := "12,3" ]};
     "2023-12" := ∅ ]}.

(** The sample sheet with a note in a column and a row that are not read. *)
Definition sample_grid_annotated : Grid :=
  replicate 14 [] ++
  [ [CStr "note"; CNaN; CNaN; CNaN; CInt 5; CNaN; CStr "  "];
    [CNaN; CNaN; CNaN; CNaN; COther "7.5"; CNaN; CStr " 12,3 "] ]
  ++ replicate 50 [] ++ [ [CStr "footer"] ].

(** A site where the ETF file is new and downloads, and the REIT page has no
    link for the month. *)
Definition sample_site : Site :=
  {| startup := None;
     visit := λ category_name _,
       if String.eqb category_name "ETFs"
       then Link "etf_m2403.xls" false (Ok true)
       else NoLink |}.


(** * Properties *)

(** ** Dicts given by their items *)

Section dict.
Context {V : Type}.
Implicit Types (d : list (string * V)) (k : string) (v : V).

Lemma dict_get_elem d k v : dict_get d k = Some v → (k, v) ∈ d.
Proof.
  induction d as [|[k' v'] d IH]; simpl; [done|].
  destruct (String.eqb_spec k' k) as [->|Hne].
  - intros [= ->]. left.
  - intros H. right. auto.
Qed.

Lemma dict_get_None d k : dict_get d k = None ↔ k ∉ keys d.
Proof.
  unfold keys. induction d as [|[k' v'] d IH]; simpl.
  - split; [intros _; apply not_elem_of_nil | done].
  - rewrite not_elem_of_cons.
    destruct (String.eqb_spec k' k) as [->|Hne].
    + split; [done | by intros [? _]].
    + rewrite IH. split; [by split | by intros [_ ?]].
Qed.

Lemma dict_get_NoDup d k v :
  NoDup (keys d) → (k, v) ∈ d → dict_get d k = Some v.
Proof.
  unfold keys. induction d as [|[k' v'] d IH]; simpl.
  - intros _ H. by apply elem_of_nil in H.
  - rewrite NoDup_cons. intros [Hk Hd] [[= -> ->]|Hin]%elem_of_cons.
    + by rewrite String.eqb_refl.
    + destruct (String.eqb_spec k' k) as [->|Hne]; [|by apply IH].
      destruct Hk. apply list_elem_of_fmap. by exists (k, v).
Qed.
End dict.

Lemma truthy_true s : PyStr.truthy s = true ↔ s ≠ "".
Proof. by destruct s. Qed.

Lemma truthy_false s : PyStr.truthy s = false ↔ s = "".
Proof. by destruct s. Qed.

(** ** The balance window *)

Lemma getitem_lookup {A} (l : list A) i x : l !! i = Some x → getitem l i = Ok x.
Proof. unfold getitem. by intros ->. Qed.

Lemma balance_try_spec g code r :
  balance_try g code r =
    Ok (if PyStr.truthy (probed g r) then Some (code, probed g r) else None).
Proof.
  unfold balance_try, probed, cell_at.
  destruct (Nat.ltb_spec r (length g)) as [Hr|Hr].
  - destruct (lookup_lt_is_Some_2 g r Hr) as [l Hl].
    rewrite (getitem_lookup _ _ _ Hl), Hl. simpl.
    destruct (Nat.ltb_spec 6 (length l)) as [Hc|Hc].
    + destruct (lookup_lt_is_Some_2 l 6 Hc) as [cell Hcell].
      rewrite (getitem_lookup _ _ _ Hcell), Hcell. simpl.
      by destruct (PyStr.truthy _).
    + by rewrite (lookup_ge_None_2 l 6).
  - by rewrite (lookup_ge_None_2 g r).
Qed.

Lemma balance_search_spec g code base offsets :
  balance_search g code base offsets =
    Ok (pair code <$> first_probe g base offsets).
Proof.
  induction offsets as [|o rest IH]; simpl; [done|].
  rewrite balance_try_spec. by destruct (PyStr.truthy _).
Qed.

Lemma category_structure_offsets key info :
  (key, info) ∈ category_structure → search_offsets info = [0; 1; 2].
Proof.
  revert key info.
  assert (Forall (λ kv, search_offsets kv.2 = [0; 1; 2]) category_structure) as H
    by (repeat constructor).
  intros key info Hin. by apply (proj1 (Forall_forall _ _) H (key, info)).
Qed.

Lemma category_structure_NoDup : NoDup (keys category_structure).
Proof. apply (bool_decide_unpack _). by vm_compute. Qed.

Lemma find_balance_spec g key info sheet_type :
  (key, info) ∈ category_structure →
  find_balance_in_category g key sheet_type =
    Ok (pair (balance_code sheet_type key)
          <$> first_probe g (base_row info) (search_offsets info)).
Proof.
  intros Hin. unfold find_balance_in_category, dict_getitem.
  rewrite (dict_get_NoDup _ _ _ category_structure_NoDup Hin). simpl.
  apply balance_search_spec.
Qed.

(** C1. For a category of the table, the resolver reads column 6 of rows
    [base_row], [base_row + 1], [base_row + 2] in this order and returns the
    indicator code with the first non-empty formatted text; a text at offset 1
    is returned when offset 0 is empty, the text at offset 0 wins when it is
    non-empty, and nothing is returned when the three probes are empty or lie
    outside the grid. *)
Theorem find_balance_first_nonempty (g : Grid) (a : AssetType)
    (key : string) (info : category_info) :
  (key, info) ∈ category_structure →
  let b := base_row info in
  let code := balance_code (asset_name a) key in
  find_balance_in_category g key (asset_name a) =
    Ok (if PyStr.truthy (probed g (b + 0)) then Some (code, probed g (b + 0))
        else if PyStr.truthy (probed g (b + 1)) then Some (code, probed g (b + 1))
        else if PyStr.truthy (probed g (b + 2)) then Some (code, probed g (b + 2))
        else None)
  ∧ (probed g (b + 0) = "" → probed g (b + 1) ≠ "" →
     find_balance_in_category g key (asset_name a)
       = Ok (Some (code, probed g (b + 1))))
  ∧ (probed g (b + 0) ≠ "" →
     find_balance_in_category g key (asset_name a)
       = Ok (Some (code, probed g (b + 0))))
  ∧ ((∀ off, off < 3 →
        cell_at g (b + off) 6 = None
        ∨ ∃ cell, cell_at g (b + off) 6 = Some cell
                  ∧ _preserve_number_formatting cell = "") →
     find_balance_in_category g key (asset_name a) = Ok None).
Proof.
  intros Hin b code.
  rewrite (find_balance_spec _ _ _ _ Hin),
    (category_structure_offsets _ _ Hin). simpl. fold b code.
  split_and!.
  - by repeat destruct (PyStr.truthy _).
  - intros ->%truthy_false ->%truthy_true. done.
  - by intros ->%truthy_true.
  - intros Hall.
    assert (∀ off, off < 3 → PyStr.truthy (probed g (b + off)) = false) as Hp.
    { intros off Hoff. apply truthy_false. unfold probed.
      destruct (Hall off Hoff) as [->|(cell & -> & Hc)]; done. }
    rewrite !Hp by lia. done.
Qed.

Lemma find_balance_first_nonempty_witness :
  find_balance_in_category sample_grid "PROP" "ETF"
    = Ok (Some ("JTMD.ETF.BAL.PROP.M", "12,3")).
Proof.
  pose proof (find_balance_first_nonempty sample_grid ETF "PROP"
                {| base_row := 13; search_offsets := [0; 1; 2] |}
                (list_elem_of_here _ _)) as [H _].
  exact H.
Defined.

(** ** The fixed-coordinate table *)

(** C2 as stated does not hold: the table of an asset type does not have 30
    entries. *)
Lemma fixed_table_not_30_entries :
  ¬ (∀ a : AssetType,
       length (relevant_mappings (asset_name a)) = 30
       ∧ Forall (λ kv, col kv.2 = 4) (relevant_mappings (asset_name a))).
Proof.
  intros H. destruct (H ETF) as [Hlen _].
  vm_compute in Hlen. discriminate Hlen.
Qed.

(** C2, amended. For each asset type the fixed-coordinate table has exactly
    28 entries, the SALES and the PURCHASES code of each of the 14 categories
    in category order, and every entry has column index 4. *)
Theorem fixed_table_28_entries_column_4 (a : AssetType) :
  length (relevant_mappings (asset_name a)) = 28
  ∧ length (keys category_structure) = 14
  ∧ keys (relevant_mappings (asset_name a))
      = flat_map (λ key, [ sales_code (asset_name a) key;
                           purchases_code (asset_name a) key ])
          (keys category_structure)
  ∧ Forall (λ kv, col kv.2 = 4) (relevant_mappings (asset_name a)).
Proof.
  destruct a; vm_compute; split_and!; try reflexivity; repeat constructor.
Qed.

(** ** The period key *)

Lemma re_search_None_inv c s :
  re_search (String c s) = None →
  match_here (String c s) = None ∧ re_search s = None.
Proof.
  cbn [re_search]. by destruct (match_here (String c s)).
Qed.

Lemma is_digit_m : PyStr.is_digit "m" = false.
Proof. reflexivity. Qed.

(** A match cannot begin before a marker and run into it: the letter is not a
    digit. *)
Lemma match_here_before_marker c pre t :
  match_here (String c pre) = None →
  match_here (String c (pre +:+ String "m" t)) = None.
Proof.
  destruct pre as [|y1 [|y2 [|m1 [|m2 rest]]]]; simpl.
  - intros _. destruct t as [|? [|? [|? ?]]]; try done.
    by rewrite is_digit_m, !andb_false_r.
  - intros _. destruct t as [|? [|? ?]]; try done.
    by rewrite is_digit_m, !andb_false_r.
  - intros _. destruct t as [|? ?]; try done.
    by rewrite is_digit_m, !andb_false_r.
  - intros _. by rewrite is_digit_m, !andb_false_r.
  - done.
Qed.

Lemma re_search_leftmost pre t groups :
  re_search pre = None →
  match_here (String "m" t) = Some groups →
  re_search (pre +:+ String "m" t) = Some groups.
Proof.
  intros Hpre Ht. induction pre as [|c pre IH].
  - change ("" +:+ String "m" t) with (String "m" t).
    cbn [re_search]. by rewrite Ht.
  - apply re_search_None_inv in Hpre as [Hc Hpre].
    change (String c pre +:+ String "m" t)
      with (String c (pre +:+ String "m" t)).
    cbn [re_search]. rewrite (match_here_before_marker _ _ _ Hc). auto.
Qed.

(** C3 as stated does not hold: a name may carry an earlier marker. *)
Lemma period_of_name_with_m2403_not_2024_03 :
  ¬ (∀ (now : Clock) (filename : string),
       PyStr.contains "m2403" filename = true →
       _extract_period_from_filename now filename = "2024-03").
Proof.
  intros H.
  specialize (H sample_clock "m1111_m2403.xlsx" eq_refl).
  vm_compute in H. discriminate H.
Qed.

(** C3, amended. The name is lowercased and the leftmost occurrence of the
    pattern decides: when the lowercased name is [pre], then [m], two digits
    [YY], two digits [MM], and [pre] holds no occurrence of the pattern, the
    period is [20YY-MM]; for the token [m2403] this is [2024-03]. *)
Theorem period_of_leftmost_marker (now : Clock) (filename pre post : string)
    (y1 y2 m1 m2 : ascii) :
  PyStr.lower filename
    = pre +:+ String "m" (String y1 (String y2 (String m1 (String m2 post)))) →
  PyStr.is_digit y1 = true → PyStr.is_digit y2 = true →
  PyStr.is_digit m1 = true → PyStr.is_digit m2 = true →
  re_search pre = None →
  _extract_period_from_filename now filename
    = "20" +:+ String y1 (String y2 "") +:+ "-" +:+ String m1 (String m2 "").
Proof.
  intros Hname Hy1 Hy2 Hm1 Hm2 Hpre. unfold _extract_period_from_filename.
  rewrite Hname.
  rewrite (re_search_leftmost pre _
             (String y1 (String y2 ""), String m1 (String m2 ""))); [done..|].
  cbn. by rewrite Hy1, Hy2, Hm1, Hm2.
Qed.

Lemma period_of_leftmost_marker_witness :
  _extract_period_from_filename sample_clock "JTMD_ETF_M2403.xlsx" = "2024-03".
Proof.
  exact (period_of_leftmost_marker sample_clock "JTMD_ETF_M2403.xlsx" "jtmd_etf_" ".xlsx"
           "2" "4" "0" "3" eq_refl eq_refl eq_refl eq_refl eq_refl eq_refl).
Defined.

(** ** The cell formatter *)

Lemma rstrip_empty s : PyStr.rstrip s = "" ↔ all_space s = true.
Proof.
  induction s as [|c s IH]; simpl; [done|].
  destruct (PyStr.rstrip s) as [|d t] eqn:Hr.
  - destruct (PyStr.is_space c); simpl.
    + by rewrite <- IH.
    + split; discriminate.
  - split; [discriminate|].
    intros [_ Hs]%andb_true_iff. apply IH in Hs. discriminate Hs.
Qed.

Lemma lstrip_all_space s : all_space (PyStr.lstrip s) = all_space s.
Proof.
  induction s as [|c s IH]; simpl; [done|].
  destruct (PyStr.is_space c) eqn:Hc; simpl; [done|]. by rewrite Hc.
Qed.

Lemma strip_empty s : PyStr.strip s = "" ↔ all_space s = true.
Proof. unfold PyStr.strip. by rewrite rstrip_empty, lstrip_all_space. Qed.

Lemma rstrip_idemp s : PyStr.rstrip (PyStr.rstrip s) = PyStr.rstrip s.
Proof.
  induction s as [|c s IH]; simpl; [done|].
  destruct (PyStr.rstrip s) as [|d t] eqn:Hr.
  - destruct (PyStr.is_space c) eqn:Hc; simpl; [done|]. by rewrite Hc.
  - change (PyStr.rstrip (String c (String d t)))
      with (match PyStr.rstrip (String d t) with
            | "" => if PyStr.is_space c then "" else String c ""
            | u => String c u
            end).
    by rewrite IH.
Qed.

Lemma lstrip_head_trimmed s : head_trimmed (PyStr.lstrip s).
Proof.
  induction s as [|c s IH]; simpl; [done|].
  by destruct (PyStr.is_space c) eqn:Hc.
Qed.

Lemma rstrip_head_trimmed s : head_trimmed s → head_trimmed (PyStr.rstrip s).
Proof.
  destruct s as [|c s]; simpl; [done|]. intros Hc.
  destruct (PyStr.rstrip s); [by rewrite Hc | done].
Qed.

Lemma lstrip_id s : head_trimmed s → PyStr.lstrip s = s.
Proof. destruct s as [|c s]; simpl; [done|]. by intros ->. Qed.

Lemma strip_idemp s : PyStr.strip (PyStr.strip s) = PyStr.strip s.
Proof.
  unfold PyStr.strip.
  rewrite (lstrip_id (PyStr.rstrip _)), rstrip_idemp; [done|].
  apply rstrip_head_trimmed, lstrip_head_trimmed.
Qed.

Lemma format_empty cell :
  _preserve_number_formatting cell = "" ↔ blank cell = true.
Proof.
  unfold _preserve_number_formatting, blank.
  destruct cell as [|s|n|t]; simpl; try done; try apply strip_empty.
  destruct s; [done|]. apply strip_empty.
Qed.

Lemma format_nonempty cell :
  _preserve_number_formatting cell ≠ "" →
  blank cell = false
  ∧ _preserve_number_formatting cell = PyStr.strip (py_str cell).
Proof.
  intros Hne. split.
  - apply not_true_is_false. by rewrite <- format_empty.
  - revert Hne. unfold _preserve_number_formatting.
    destruct cell as [|[|]| |]; simpl; done.
Qed.

(** ** The two extraction loops *)

Lemma fixed_value_None g c :
  cell_at g (row c) (col c) = None → fixed_value g c = None.
Proof. unfold fixed_value. by intros ->. Qed.

Lemma fixed_step g code c rest acc :
  fixed_loop g ((code, c) :: rest) acc =
    fixed_loop g rest
      (match fixed_value g c with
       | Some v => <[code := v]> acc
       | None => acc
       end).
Proof.
  cbn [fixed_loop]. unfold fixed_try, fixed_value, cell_at, getitem.
  destruct (g !! row c) as [l|]; simpl; [|done].
  destruct (l !! col c) as [cell|]; simpl; [|done].
  by destruct (PyStr.truthy _).
Qed.

Lemma fixed_loop_lookup g ms acc :
  NoDup (keys ms) →
  ∃ m, fixed_loop g ms acc = Ok m
       ∧ ∀ code, m !! code
           = from_option Some (acc !! code) (dict_get ms code ≫= fixed_value g).
Proof.
  unfold keys. revert acc. induction ms as [|[k c] ms IH]; intros acc Hnd.
  - by exists acc.
  - apply NoDup_cons in Hnd as [Hk Hnd]. rewrite fixed_step.
    destruct (IH (match fixed_value g c with
                  | Some v => <[k := v]> acc
                  | None => acc
                  end) Hnd) as (m & -> & Hm).
    exists m. split; [done|]. intros code. rewrite Hm. simpl.
    destruct (String.eqb_spec k code) as [->|Hne].
    + rewrite (proj2 (dict_get_None ms code) Hk). simpl.
      destruct (fixed_value g c); simpl; [by rewrite lookup_insert_eq | done].
    + destruct (dict_get ms code ≫= fixed_value g); simpl; [done|].
      destruct (fixed_value g c); [by rewrite lookup_insert_ne | done].
Qed.

Lemma find_code_None {A} (f : A → string) (l : list A) code :
  code ∉ f <$> l → List.find (λ k, String.eqb (f k) code) l = None.
Proof.
  induction l as [|x l IH]; simpl; [done|].
  rewrite not_elem_of_cons. intros [Hx Hl].
  destruct (String.eqb_spec (f x) code) as [Heq|_]; [by destruct Hx | auto].
Qed.

Lemma find_code_Some {A} (f : A → string) (l : list A) x :
  NoDup (f <$> l) → x ∈ l →
  List.find (λ k, String.eqb (f k) (f x)) l = Some x.
Proof.
  induction l as [|y l IH]; simpl.
  - intros _ H. by apply elem_of_nil in H.
  - rewrite NoDup_cons. intros [Hy Hnd] [->|Hin]%elem_of_cons.
    + by rewrite String.eqb_refl.
    + destruct (String.eqb_spec (f y) (f x)) as [Heq|_]; [|auto].
      destruct Hy. rewrite Heq. by apply list_elem_of_fmap_2.
Qed.

Lemma find_code_inv {A} (f : A → string) (l : list A) code x :
  List.find (λ k, String.eqb (f k) code) l = Some x → x ∈ l ∧ f x = code.
Proof.
  intros [Hin Heq]%find_some. split.
  - by apply list_elem_of_In.
  - by apply String.eqb_eq.
Qed.

Lemma category_key_info key :
  key ∈ keys category_structure → ∃ info, (key, info) ∈ category_structure.
Proof.
  unfold keys. intros ([k info] & -> & Hin)%list_elem_of_fmap. by exists info.
Qed.

Lemma balance_value_cons g sheet_type k ks code :
  balance_value g sheet_type (k :: ks) code =
    if String.eqb (balance_code sheet_type k) code
    then info ← dict_get category_structure k;
         first_probe g (base_row info) (search_offsets info)
    else balance_value g sheet_type ks code.
Proof.
  unfold balance_value. cbn [List.find].
  by destruct (String.eqb (balance_code sheet_type k) code).
Qed.

Lemma balance_value_None g sheet_type ks code :
  code ∉ balance_code sheet_type <$> ks →
  balance_value g sheet_type ks code = None.
Proof. intros H. unfold balance_value. by rewrite (find_code_None _ _ _ H). Qed.

Lemma balance_loop_lookup g sheet_type ks acc :
  (∀ k, k ∈ ks → k ∈ keys category_structure) →
  NoDup (balance_code sheet_type <$> ks) →
  ∃ m, balance_loop g sheet_type ks acc = Ok m
       ∧ ∀ code, m !! code
           = from_option Some (acc !! code) (balance_value g sheet_type ks code).
Proof.
  revert acc. induction ks as [|k ks IH]; intros acc Hks Hnd.
  - by exists acc.
  - rewrite fmap_cons in Hnd. apply NoDup_cons in Hnd as [Hk Hnd].
    destruct (category_key_info k) as [info Hinfo];
      [apply Hks; left|].
    cbn [balance_loop]. rewrite (find_balance_spec _ _ _ _ Hinfo).
    assert (∀ k', k' ∈ ks → k' ∈ keys category_structure) as Hks'
      by (intros k' Hk'; apply Hks; by right).
    pose proof (dict_get_NoDup _ _ _ category_structure_NoDup Hinfo) as Hget.
    destruct (first_probe g (base_row info) (search_offsets info))
      as [v|] eqn:Hprobe; cbn [fmap option_fmap option_map rbind].
    + destruct (IH (<[balance_code sheet_type k := v]> acc) Hks' Hnd)
        as (m & -> & Hm).
      exists m. split; [done|]. intros code.
      rewrite Hm, balance_value_cons, Hget. cbn [mbind option_bind].
      destruct (String.eqb_spec (balance_code sheet_type k) code) as [<-|Hne].
      * rewrite (balance_value_None _ _ _ _ Hk), Hprobe. simpl.
        by rewrite lookup_insert_eq.
      * by rewrite lookup_insert_ne.
    + destruct (IH acc Hks' Hnd) as (m & -> & Hm).
      exists m. split; [done|]. intros code.
      rewrite Hm, balance_value_cons, Hget. cbn [mbind option_bind].
      destruct (String.eqb_spec (balance_code sheet_type k) code) as [<-|Hne].
      * by rewrite (balance_value_None _ _ _ _ Hk), Hprobe.
      * done.
Qed.

(** ** Facts about the constant tables, by evaluation *)

Lemma relevant_mappings_NoDup a :
  NoDup (keys (relevant_mappings (asset_name a))).
Proof. destruct a; apply (bool_decide_unpack _); by vm_compute. Qed.

Lemma balance_codes_NoDup a :
  NoDup (balance_code (asset_name a) <$> keys category_structure).
Proof. destruct a; apply (bool_decide_unpack _); by vm_compute. Qed.

Lemma fixed_codes_not_balance a :
  Forall (λ code, code ∉ balance_code (asset_name a) <$> keys category_structure)
    (keys (relevant_mappings (asset_name a))).
Proof. destruct a; apply (bool_decide_unpack _); by vm_compute. Qed.

Lemma fixed_codes_in_catalog a :
  Forall (λ code, code ∈ keys column_mapping)
    (keys (relevant_mappings (asset_name a))).
Proof. destruct a; apply (bool_decide_unpack _); by vm_compute. Qed.

Lemma balance_codes_in_catalog a :
  Forall (λ code, code ∈ keys column_mapping)
    (balance_code (asset_name a) <$> keys category_structure).
Proof. destruct a; apply (bool_decide_unpack _); by vm_compute. Qed.

Lemma fixed_code_not_balance a code c :
  (code, c) ∈ relevant_mappings (asset_name a) →
  code ∉ balance_code (asset_name a) <$> keys category_structure.
Proof.
  intros Hin.
  apply (proj1 (Forall_forall _ _) (fixed_codes_not_balance a)).
  unfold keys. apply list_elem_of_fmap. by exists (code, c).
Qed.

Lemma balance_code_not_fixed a key :
  key ∈ keys category_structure →
  dict_get (relevant_mappings (asset_name a)) (balance_code (asset_name a) key)
    = None.
Proof.
  intros Hkey. apply dict_get_None. intros Hin.
  apply (proj1 (Forall_forall _ _) (fixed_codes_not_balance a) _ Hin).
  by apply list_elem_of_fmap_2.
Qed.

(** ** The result of [_extract_from_sheet], code by code *)

Lemma extract_lookup g a :
  ∃ m, _extract_from_sheet g (asset_name a) = Ok m
       ∧ ∀ code, m !! code
           = from_option Some
               (dict_get (relevant_mappings (asset_name a)) code
                  ≫= fixed_value g)
               (balance_value g (asset_name a) (keys category_structure) code).
Proof.
  unfold _extract_from_sheet.
  destruct (fixed_loop_lookup g (relevant_mappings (asset_name a)) ∅
              (relevant_mappings_NoDup a)) as (m1 & -> & Hm1).
  destruct (balance_loop_lookup g (asset_name a) (keys category_structure) m1
              (λ _ H, H) (balance_codes_NoDup a)) as (m & Hloop & Hm).
  exists m. cbn [rbind]. rewrite Hloop. split; [done|].
  intros code. rewrite Hm, Hm1, lookup_empty.
  by destruct (dict_get _ code ≫= fixed_value g).
Qed.

Lemma extract_fixed_lookup g a m code c :
  _extract_from_sheet g (asset_name a) = Ok m →
  (code, c) ∈ relevant_mappings (asset_name a) →
  m !! code = fixed_value g c.
Proof.
  intros Hm Hin. destruct (extract_lookup g a) as (m' & Hm' & Hlook).
  rewrite Hm in Hm'. injection Hm' as <-. rewrite Hlook.
  rewrite (balance_value_None _ _ _ _ (fixed_code_not_balance _ _ _ Hin)).
  rewrite (dict_get_NoDup _ _ _ (relevant_mappings_NoDup a) Hin). simpl.
  by destruct (fixed_value g c).
Qed.

Lemma extract_balance_lookup g a m key info :
  _extract_from_sheet g (asset_name a) = Ok m →
  (key, info) ∈ category_structure →
  m !! balance_code (asset_name a) key
    = first_probe g (base_row info) (search_offsets info).
Proof.
  intros Hm Hin. destruct (extract_lookup g a) as (m' & Hm' & Hlook).
  rewrite Hm in Hm'. injection Hm' as <-. rewrite Hlook.
  assert (key ∈ keys category_structure) as Hkey.
  { unfold keys. apply list_elem_of_fmap. by exists (key, info). }
  rewrite (balance_code_not_fixed _ _ Hkey). unfold balance_value.
  rewrite (find_code_Some (balance_code (asset_name a)) _ key
             (balance_codes_NoDup a) Hkey). cbn [mbind option_bind].
  rewrite (dict_get_NoDup _ _ _ category_structure_NoDup Hin).
  cbn [mbind option_bind from_option].
  by destruct (first_probe _ _ _).
Qed.

Lemma from_option_Some_inv {A} (mx y : option A) v :
  from_option Some y mx = Some v → mx = Some v ∨ (mx = None ∧ y = Some v).
Proof. destruct mx; simpl; [by left | by right]. Qed.

(** Where a value of the result comes from. *)
Lemma extract_source g a m code v :
  _extract_from_sheet g (asset_name a) = Ok m →
  m !! code = Some v →
  (∃ c, (code, c) ∈ relevant_mappings (asset_name a)
        ∧ fixed_value g c = Some v)
  ∨ (∃ key info, (key, info) ∈ category_structure
        ∧ code = balance_code (asset_name a) key
        ∧ first_probe g (base_row info) (search_offsets info) = Some v).
Proof.
  intros Hm Hv. destruct (extract_lookup g a) as (m' & Hm' & Hlook).
  rewrite Hm in Hm'. injection Hm' as <-. rewrite Hlook in Hv.
  apply from_option_Some_inv in Hv as [Hb | [_ Hfix]].
  - right. unfold balance_value in Hb.
    apply bind_Some in Hb as (key & Hfind & Hb).
    apply bind_Some in Hb as (info & Hget & Hb).
    apply find_code_inv in Hfind as [Hkey <-].
    exists key, info.
    split_and!; [apply dict_get_elem, Hget | reflexivity | exact Hb].
  - left. apply bind_Some in Hfix as (c & Hget & Hfix).
    exists c. split; [apply dict_get_elem, Hget | exact Hfix].
Qed.

Lemma first_probe_inv g base offsets v :
  first_probe g base offsets = Some v →
  ∃ off, off ∈ offsets ∧ probed g (base + off) = v ∧ v ≠ "".
Proof.
  induction offsets as [|o rest IH]; simpl; [done|].
  destruct (PyStr.truthy (probed g (base + o))) eqn:Ht.
  - intros [= <-]. exists o. split_and!; [left | done | by apply truthy_true].
  - intros (off & Hin & Hv)%IH. exists off. split; [by right | done].
Qed.

Lemma first_probe_None g base offsets :
  (∀ off, off ∈ offsets → probed g (base + off) = "") →
  first_probe g base offsets = None.
Proof.
  induction offsets as [|o rest IH]; simpl; [done|]. intros H.
  rewrite (H o) by left. simpl. apply IH. intros off Hoff. apply H. by right.
Qed.

Lemma probed_cell g r v :
  probed g r = v → v ≠ "" →
  ∃ cell, cell_at g r 6 = Some cell ∧ _preserve_number_formatting cell = v.
Proof.
  unfold probed. destruct (cell_at g r 6) as [cell|]; simpl.
  - intros <- _. by exists cell.
  - by intros <-.
Qed.

Lemma fixed_value_inv g c v :
  fixed_value g c = Some v →
  ∃ cell, cell_at g (row c) (col c) = Some cell
          ∧ _preserve_number_formatting cell = v ∧ v ≠ "".
Proof.
  unfold fixed_value. destruct (cell_at g (row c) (col c)) as [cell|]; [|done].
  simpl. destruct (PyStr.truthy _) eqn:Ht; [|done].
  intros [= <-]. exists cell. split_and!; [done..|]. by apply truthy_true.
Qed.

Lemma probed_out_of_bounds g r : cell_at g r 6 = None → probed g r = "".
Proof. unfold probed. by intros ->. Qed.

Lemma probed_blank g r cell :
  cell_at g r 6 = Some cell → blank cell = true → probed g r = "".
Proof. unfold probed. intros -> Hb. by apply format_empty. Qed.

Lemma fixed_value_blank g c cell :
  cell_at g (row c) (col c) = Some cell → blank cell = true →
  fixed_value g c = None.
Proof.
  unfold fixed_value. intros -> Hb%format_empty.
  cbn [mbind option_bind]. by rewrite Hb.
Qed.

(** ** Extraction on short grids *)

(** C5. Extraction of a grid of any shape returns a result map and raises
    nothing. A fixed-coordinate field whose coordinate is outside the grid is
    absent from the map, a balance category whose probed cells are all outside
    the grid is absent from the map, and every other field is extracted as
    if the grid were complete: a fixed field holds the value of its own cell,
    a balance field the first non-empty probe of its own window. *)
Theorem extract_never_raises_on_short_grid (g : Grid) (a : AssetType) :
  ∃ m, _extract_from_sheet g (asset_name a) = Ok m
    ∧ (∀ code c, (code, c) ∈ relevant_mappings (asset_name a) →
         cell_at g (row c) (col c) = None → m !! code = None)
    ∧ (∀ key info, (key, info) ∈ category_structure →
         (∀ off, off ∈ search_offsets info →
            cell_at g (base_row info + off) 6 = None) →
         m !! balance_code (asset_name a) key = None)
    ∧ (∀ code c, (code, c) ∈ relevant_mappings (asset_name a) →
         m !! code = fixed_value g c)
    ∧ (∀ key info, (key, info) ∈ category_structure →
         m !! balance_code (asset_name a) key
           = first_probe g (base_row info) (search_offsets info)).
Proof.
  destruct (extract_lookup g a) as (m & Hm & _). exists m.
  split_and!; [done|..].
  - intros code c Hin Hout.
    rewrite (extract_fixed_lookup _ _ _ _ _ Hm Hin).
    by apply fixed_value_None.
  - intros key info Hin Hout.
    rewrite (extract_balance_lookup _ _ _ _ _ Hm Hin).
    apply first_probe_None. intros off Hoff.
    apply probed_out_of_bounds. by apply Hout.
  - intros code c Hin. exact (extract_fixed_lookup _ _ _ _ _ Hm Hin).
  - intros key info Hin. exact (extract_balance_lookup _ _ _ _ _ Hm Hin).
Qed.

(** ** The values of the result *)

(** C6. Every value of the result map is non-empty, is trimmed, and is the
    trimmed text of a cell of the grid that is not missing, empty or
    whitespace-only. A fixed field whose cell is missing, empty or
    whitespace-only is absent from the map, and so is a balance field whose
    probed cells inside the grid are all of this kind; no code is mapped to
    the empty string. *)
Theorem extracted_values_trimmed_nonempty (g : Grid) (a : AssetType) :
  ∃ m, _extract_from_sheet g (asset_name a) = Ok m
    ∧ (∀ code v, m !! code = Some v →
         v ≠ "" ∧ PyStr.strip v = v
         ∧ ∃ r c cell, cell_at g r c = Some cell ∧ blank cell = false
                       ∧ v = PyStr.strip (py_str cell))
    ∧ (∀ code c cell, (code, c) ∈ relevant_mappings (asset_name a) →
         cell_at g (row c) (col c) = Some cell → blank cell = true →
         m !! code = None)
    ∧ (∀ key info, (key, info) ∈ category_structure →
         (∀ off cell, off ∈ search_offsets info →
            cell_at g (base_row info + off) 6 = Some cell →
            blank cell = true) →
         m !! balance_code (asset_name a) key = None)
    ∧ (∀ code, m !! code ≠ Some "").
Proof.
  destruct (extract_lookup g a) as (m & Hm & _). exists m.
  assert (∀ code v, m !! code = Some v →
            v ≠ "" ∧ ∃ r c cell, cell_at g r c = Some cell
                                 ∧ _preserve_number_formatting cell = v) as Hsrc.
  { intros code v Hv.
    destruct (extract_source _ _ _ _ _ Hm Hv)
      as [(c & _ & Hfix) | (key & info & _ & _ & Hprobe)].
    - apply fixed_value_inv in Hfix as (cell & Hcell & Hfmt & Hne).
      split; [done|]. by exists (row c), (col c), cell.
    - apply first_probe_inv in Hprobe as (off & _ & Hp & Hne).
      split; [done|].
      destruct (probed_cell _ _ _ Hp Hne) as (cell & Hcell & Hfmt).
      by exists (base_row info + off), 6, cell. }
  split_and!; [done|..].
  - intros code v Hv.
    destruct (Hsrc code v Hv) as (Hne & r & c & cell & Hcell & Hfmt).
    subst v. destruct (format_nonempty cell Hne) as [Hblank Heq].
    split_and!; [done | |].
    + rewrite Heq. apply strip_idemp.
    + by exists r, c, cell.
  - intros code c cell Hin Hcell Hblank.
    rewrite (extract_fixed_lookup _ _ _ _ _ Hm Hin).
    by apply (fixed_value_blank _ _ cell).
  - intros key info Hin Hall.
    rewrite (extract_balance_lookup _ _ _ _ _ Hm Hin).
    apply first_probe_None. intros off Hoff.
    destruct (cell_at g (base_row info + off) 6) as [cell|] eqn:Hcell.
    + apply (probed_blank _ _ cell Hcell). by apply (Hall off).
    + by apply probed_out_of_bounds.
  - intros code Hv. by destruct (Hsrc code "" Hv) as [Hne _].
Qed.

(** ** The codes of the result *)

(** C8. Every code of the result map is a key of the column mapping, the
    fixed catalog; this covers the balance codes, which are built from the
    asset type and the category key. *)
Theorem extracted_codes_in_catalog (g : Grid) (a : AssetType) :
  ∃ m, _extract_from_sheet g (asset_name a) = Ok m
    ∧ (∀ code v, m !! code = Some v →
         code ∈ keys column_mapping
         ∧ is_Some (dict_get column_mapping code))
    ∧ (∀ key, key ∈ keys category_structure →
         balance_code (asset_name a) key ∈ keys column_mapping).
Proof.
  destruct (extract_lookup g a) as (m & Hm & _). exists m.
  assert (∀ key, key ∈ keys category_structure →
            balance_code (asset_name a) key ∈ keys column_mapping) as Hbal.
  { intros key Hkey.
    apply (proj1 (Forall_forall _ _) (balance_codes_in_catalog a)).
    by apply list_elem_of_fmap_2. }
  assert (∀ code v, m !! code = Some v → code ∈ keys column_mapping) as Hin.
  { intros code v Hv.
    destruct (extract_source _ _ _ _ _ Hm Hv)
      as [(c & Hc & _) | (key & info & Hk & -> & _)].
    - apply (proj1 (Forall_forall _ _) (fixed_codes_in_catalog a)).
      unfold keys. apply list_elem_of_fmap. by exists (code, c).
    - apply Hbal. unfold keys. apply list_elem_of_fmap. by exists (key, info). }
  split_and!; [done | | done].
  intros code v Hv. split; [by apply (Hin code v)|].
  destruct (dict_get column_mapping code) as [d|] eqn:Hget; [by exists d|].
  apply dict_get_None in Hget. destruct Hget. by apply (Hin code v).
Qed.

(** ** The dataset merge *)

Lemma accumulate_spec all_data period data :
  accumulate all_data period data
    = Ok (<[period := data ∪ default ∅ (all_data !! period)]> all_data).
Proof.
  unfold accumulate. destruct (all_data !! period) as [existing|] eqn:Hold.
  - by rewrite Hold.
  - rewrite lookup_insert_eq. simpl. by rewrite insert_insert_eq.
Qed.

Lemma accumulate_twice all_data period data merged :
  accumulate all_data period data = Ok merged →
  accumulate merged period data = Ok merged.
Proof.
  rewrite accumulate_spec. intros [= <-].
  rewrite accumulate_spec, lookup_insert_eq. simpl.
  by rewrite insert_insert_eq, (assoc (∪)), (idemp (∪)).
Qed.

Lemma update_lookup (data existing : gmap string string) code :
  (data ∪ existing) !! code
    = match data !! code with
      | Some v => Some v
      | None => existing !! code
      end.
Proof.
  rewrite lookup_union.
  by destruct (data !! code), (existing !! code).
Qed.

(** C4. Merging a file's result for a period inserts the map when the period
    is new and otherwise updates the map of the period, a colliding code
    taking the new value and the other codes keeping theirs; merging the same
    result a second time changes nothing, so processing the same file twice
    leaves the dataset of processing it once. *)
Theorem accumulate_overwrites_and_is_idempotent
    (all_data : gmap string (gmap string string)) (period : string)
    (data : gmap string string) :
  (all_data !! period = None →
     accumulate all_data period data = Ok (<[period := data]> all_data))
  ∧ (∀ existing, all_data !! period = Some existing →
       accumulate all_data period data
         = Ok (<[period := data ∪ existing]> all_data)
       ∧ ∀ code, (data ∪ existing) !! code
           = match data !! code with
             | Some v => Some v
             | None => existing !! code
             end)
  ∧ (∃ merged, accumulate all_data period data = Ok merged
       ∧ accumulate merged period data = Ok merged
       ∧ ∀ other, other ≠ period → merged !! other = all_data !! other)
  ∧ (∀ now name wb,
       run_loop now [(name, wb); (name, wb)] all_data
         = run_loop now [(name, wb)] all_data).
Proof.
  split_and!.
  - intros Hnew. rewrite accumulate_spec, Hnew. simpl.
    by rewrite (right_id ∅ (∪)).
  - intros existing Hold. rewrite accumulate_spec, Hold. simpl.
    split; [done|]. intros code. apply update_lookup.
  - eexists. split; [apply accumulate_spec|]. split.
    + eapply accumulate_twice, accumulate_spec.
    + intros other Hne. by rewrite lookup_insert_ne.
  - intros now name wb. cbn [run_loop].
    destruct (process_excel_file now name wb) as [p d].
    destruct (accumulate all_data p d) as [merged|e] eqn:Hacc; [|done].
    cbn [rbind]. by rewrite (accumulate_twice _ _ _ _ Hacc).
Qed.

(** ** Asset type of a file *)

Lemma prefix_spec p s : String.prefix p s = true ↔ ∃ post, s = p +:+ post.
Proof.
  revert s. induction p as [|c p IH]; intros s.
  - destruct s; (split; [intros _; by eexists | done]).
  - destruct s as [|d s]; simpl.
    + split; [done | by intros [post ?]].
    + destruct (ascii_dec c d) as [->|Hne].
      * rewrite IH. split; intros [post Hs]; exists post; [by rewrite Hs|].
        by injection Hs.
      * split; [done|]. intros [post Hs]. injection Hs as -> _. done.
Qed.

Lemma contains_unfold needle s :
  PyStr.contains needle s =
    String.prefix needle s ||
    match s with
    | EmptyString => false
    | String _ s' => PyStr.contains needle s'
    end.
Proof. by destruct s. Qed.

Lemma contains_spec needle s :
  PyStr.contains needle s = true ↔ ∃ pre post, s = pre +:+ needle +:+ post.
Proof.
  split.
  - induction s as [|c s IH]; rewrite contains_unfold;
      intros [Hp|Hc]%orb_true_iff.
    + apply prefix_spec in Hp as [post ->]. by exists "", post.
    + done.
    + apply prefix_spec in Hp as [post ->]. by exists "", post.
    + destruct (IH Hc) as (pre & post & ->). by exists (String c pre), post.
  - intros (pre & post & ->). induction pre as [|c pre IH].
    + rewrite contains_unfold. apply orb_true_iff. left.
      apply prefix_spec. by exists post.
    + change (String c pre +:+ needle +:+ post)
        with (String c (pre +:+ needle +:+ post)).
      rewrite contains_unfold, IH. apply orb_true_r.
Qed.

Lemma sheet_type_of_asset name : ∃ a, sheet_type_of name = asset_name a.
Proof.
  unfold sheet_type_of. destruct (PyStr.contains _ _); [by exists ETF | by exists REIT].
Qed.

Lemma dict_get_existsb {V} (d : list (string * V)) k v :
  dict_get d k = Some v → existsb (String.eqb k) (keys d) = true.
Proof.
  unfold keys. induction d as [|[k' v'] d IH]; simpl; [done|].
  rewrite (String.eqb_sym k k').
  destruct (String.eqb k' k); [done | by apply IH].
Qed.

(** C9. A file is an ETF sheet exactly when its lowercased name contains
    [etf], and a REIT sheet otherwise: these are the only two outcomes, and a
    readable file with a [Value] sheet is always extracted, under the type so
    chosen, whatever its name. *)
Theorem asset_type_defaults_to_reit (now : Clock) (name : string) :
  (sheet_type_of name = "ETF" ∨ sheet_type_of name = "REIT")
  ∧ (sheet_type_of name = "ETF"
       ↔ ∃ pre post, PyStr.lower name = pre +:+ "etf" +:+ post)
  ∧ (sheet_type_of name = "REIT"
       ↔ ¬ ∃ pre post, PyStr.lower name = pre +:+ "etf" +:+ post)
  ∧ (∀ sheets df, dict_get sheets "Value" = Some (Ok df) →
       ∃ data, _extract_from_sheet df (sheet_type_of name) = Ok data
         ∧ process_excel_file now name (Ok sheets)
             = (_extract_period_from_filename now name, data)).
Proof.
  split_and!.
  - unfold sheet_type_of. destruct (PyStr.contains _ _); [by left | by right].
  - rewrite <- contains_spec. unfold sheet_type_of.
    by destruct (PyStr.contains _ _).
  - rewrite <- contains_spec. unfold sheet_type_of.
    by destruct (PyStr.contains _ _).
  - intros sheets df Hsheet.
    destruct (sheet_type_of_asset name) as [a Ha].
    destruct (extract_lookup df a) as (data & Hdata & _).
    exists data. rewrite Ha. split; [done|].
    unfold process_excel_file. cbn [rbind].
    rewrite (dict_get_existsb _ _ _ Hsheet), Hsheet, Ha.
    cbn [negb default from_option id rbind].
    by rewrite Hdata.
Qed.

(** ** The data table *)

Global Instance item_le_transitive : Transitive item_le.
Proof. intros a b c. unfold item_le. apply transitivity. Qed.

Global Instance item_le_total : Total item_le.
Proof. intros a b. unfold item_le. apply total, _. Qed.

Lemma foldl_insert_lookup (f : string → string) (cols : list string)
    (init : gmap string string) (c : string) :
  foldl (λ r col, <[col := f col]> r) init cols !! c
    = if decide (c ∈ cols) then Some (f c) else init !! c.
Proof.
  revert init. induction cols as [|x cols IH]; intros init; cbn [foldl].
  - destruct (decide (c ∈ [])) as [Hin|_]; [|done].
    by apply elem_of_nil in Hin.
  - rewrite IH.
    destruct (decide (c ∈ cols)) as [Hin|Hout],
             (decide (c ∈ x :: cols)) as [Hin'|Hout']; try done.
    + destruct Hout'. by right.
    + apply elem_of_cons in Hin' as [->|Hin']; [|done].
      by rewrite lookup_insert_eq.
    + rewrite lookup_insert_ne; [done|]. intros ->. destruct Hout'. left.
Qed.

Lemma render_output_row (cols : list string) period period_data :
  "" ∉ cols →
  render_row ("" :: cols) (output_row ("" :: cols) period period_data)
    = period :: map (λ code, default "" (period_data !! code)) cols.
Proof.
  intros Hcols. unfold render_row, output_row. cbn [tail map]. f_equal.
  - rewrite foldl_insert_lookup.
    destruct (decide ("" ∈ cols)); [done|]. by rewrite lookup_singleton_eq.
  - apply map_ext_in. intros c Hc%list_elem_of_In.
    rewrite foldl_insert_lookup. by destruct (decide (c ∈ cols)).
Qed.

Lemma empty_not_a_code : "" ∉ keys column_mapping.
Proof. apply (bool_decide_unpack _). by vm_compute. Qed.

Lemma sorted_items_Permutation all_data :
  sorted_items all_data ≡ₚ map_to_list all_data.
Proof. apply merge_sort_Permutation. Qed.

Lemma sorted_items_nonempty all_data :
  all_data ≠ ∅ → sorted_items all_data ≠ [].
Proof.
  intros Hne Hnil. apply Hne, map_to_list_empty_iff, Permutation_nil_r.
  by rewrite <- sorted_items_Permutation, Hnil.
Qed.

Lemma create_output_csv_spec all_data timestamp :
  all_data ≠ ∅ →
  _create_output_csv all_data timestamp
    = Ok ("JTMD_DATA_" +:+ timestamp +:+ ".csv",
          ("" :: keys column_mapping) :: ("" :: values column_mapping)
          :: map (λ item, data_row item.1 item.2) (sorted_items all_data)).
Proof.
  intros Hne%sorted_items_nonempty. unfold _create_output_csv, data_row.
  pose proof empty_not_a_code as Hcode.
  set (cols := keys column_mapping) in *.
  set (descs := values column_mapping). clearbody cols descs.
  destruct (sorted_items all_data) as [|[p d] items]; [done|].
  cbn [map app fst snd]. do 2 f_equal. rewrite (render_output_row _ _ _ Hcode).
  do 3 f_equal. rewrite map_map. apply map_ext. intros [p' d'].
  by apply render_output_row.
Qed.

(** C7. For a dataset with at least one period, the only kind [run] passes
    on, the data table is the row of the indicator codes, the row of their
    descriptions, and then one row per period of the dataset: the rows are in
    ascending order of the period key, without repetition, and each row is
    the period followed by one field per catalog code in catalog order, the
    value of the period for that code or the empty field when it has none. *)
Theorem data_table_layout (all_data : gmap string (gmap string string))
    (timestamp : string) :
  all_data ≠ ∅ →
  ∃ rows items,
    _create_output_csv all_data timestamp
      = Ok ("JTMD_DATA_" +:+ timestamp +:+ ".csv",
            ("" :: keys column_mapping) :: ("" :: values column_mapping) :: rows)
    ∧ rows = map (λ item, data_row item.1 item.2) items
    ∧ items ≡ₚ map_to_list all_data
    ∧ StronglySorted String.le items.*1
    ∧ NoDup items.*1
    ∧ length rows = size all_data
    ∧ (∀ period period_data, all_data !! period = Some period_data →
         data_row period period_data ∈ rows)
    ∧ (∀ period period_data i code,
         keys column_mapping !! i = Some code →
         data_row period period_data !! 0 = Some period
         ∧ data_row period period_data !! S i
             = Some (default "" (period_data !! code))).
Proof.
  intros Hne. exists (map (λ item, data_row item.1 item.2) (sorted_items all_data)),
    (sorted_items all_data).
  split_and!.
  - by apply create_output_csv_spec.
  - done.
  - apply sorted_items_Permutation.
  - apply (StronglySorted_fmap fst item_le); [done|].
    apply (StronglySorted_merge_sort item_le).
  - rewrite sorted_items_Permutation. apply NoDup_fst_map_to_list.
  - by rewrite length_map, sorted_items_Permutation, length_map_to_list.
  - intros period period_data Hp.
    apply list_elem_of_In, in_map_iff. exists (period, period_data).
    split; [done|]. apply list_elem_of_In.
    rewrite sorted_items_Permutation. by apply elem_of_map_to_list.
  - intros period period_data i code Hi. split; [done|].
    unfold data_row. revert Hi. generalize (keys column_mapping).
    intros cols Hi. change ((period :: ?l) !! S i) with (l !! i).
    change (map ?f cols) with (f <$> cols).
    by rewrite list_lookup_fmap, Hi.
Qed.

Lemma data_table_layout_witness :
  ∃ rows,
    _create_output_csv sample_dataset "20261104"
      = Ok ("JTMD_DATA_20261104.csv",
            ("" :: keys column_mapping) :: ("" :: values column_mapping) :: rows)
    ∧ length rows = size sample_dataset.
Proof.
  assert (sample_dataset ≠ ∅) as Hne
    by (apply (bool_decide_unpack _); vm_compute; exact I).
  destruct (data_table_layout sample_dataset "20261104" Hne)
    as (rows & items & Hcsv & _ & _ & _ & _ & Hlen & _).
  exists rows. split; [exact Hcsv | exact Hlen].
Defined.

(** ** The run *)

Lemma process_excel_file_period now name wb :
  (process_excel_file now name wb).1 = _extract_period_from_filename now name.
Proof.
  unfold process_excel_file. destruct wb as [sheets|e]; cbn [rbind]; [|done].
  destruct (negb _); [done|].
  destruct (default _ _) as [df|e]; cbn [rbind]; [|done].
  by destruct (_extract_from_sheet df (sheet_type_of name)).
Qed.

Lemma process_excel_file_failed now name e :
  process_excel_file now name (Raise e)
    = (_extract_period_from_filename now name, ∅).
Proof. reflexivity. Qed.

Lemma run_loop_spec now files all_data :
  ∃ m, run_loop now files all_data = Ok m
    ∧ (∀ p, is_Some (all_data !! p) → is_Some (m !! p))
    ∧ (∀ name wb, (name, wb) ∈ files →
         is_Some (m !! _extract_period_from_filename now name)).
Proof.
  revert all_data. induction files as [|[name wb] files IH]; intros all_data.
  - exists all_data. split_and!; [done..|].
    intros name wb Hin. by apply elem_of_nil in Hin.
  - cbn [run_loop].
    pose proof (process_excel_file_period now name wb) as Hperiod.
    destruct (process_excel_file now name wb) as [p d]. cbn [fst] in Hperiod.
    subst p. rewrite accumulate_spec. cbn [rbind].
    destruct (IH (<[_extract_period_from_filename now name :=
                     d ∪ default ∅ (all_data !! _extract_period_from_filename
                                                   now name)]> all_data))
      as (m & -> & Hkeep & Hfiles).
    exists m. split_and!; [done|..].
    + intros p Hp. apply Hkeep.
      destruct (decide (_extract_period_from_filename now name = p)) as [->|Hne].
      * rewrite lookup_insert_eq. by eexists.
      * by rewrite lookup_insert_ne.
    + intros name' wb' [[= -> ->]|Hin]%elem_of_cons.
      * apply Hkeep. rewrite lookup_insert_eq. by eexists.
      * by apply (Hfiles name' wb').
Qed.

(** C10. When the glob finds at least one workbook, the loop of [run] ends
    with a dataset that has the period of every file as a key, hence is not
    empty, the branch that reports that no data was extracted is not taken,
    and the run ends with the data table, the metadata table and the archive.
    A file that cannot be opened still contributes its period with an empty
    map, so that a run over such a file alone completes as well. *)
Theorem run_completes_when_files_exist (now : Clock)
    (excel_files : list (string * Workbook)) :
  excel_files ≠ [] →
  (∃ all_data table,
     run_loop now excel_files ∅ = Ok all_data
     ∧ all_data ≠ ∅
     ∧ (∀ name wb, (name, wb) ∈ excel_files →
          is_Some (all_data !! _extract_period_from_filename now name))
     ∧ _create_output_csv all_data (now_date_stamp now) = Ok table
     ∧ run now excel_files
         = Completed
             {| data_file := table;
                metadata_file := _create_metadata_csv now (now_date_stamp now);
                zip_archive :=
                  _create_zip_archive table
                    (_create_metadata_csv now (now_date_stamp now))
                    (now_date_stamp now) |})
  ∧ run now excel_files ≠ NoDataExtracted
  ∧ (∀ name e,
       process_excel_file now name (Raise e)
         = (_extract_period_from_filename now name, ∅)
       ∧ run_loop now [(name, Raise e)] ∅
           = Ok {[ _extract_period_from_filename now name := ∅ ]}
       ∧ ∃ a, run now [(name, Raise e)] = Completed a).
Proof.
  assert (∀ files, files ≠ [] →
            ∃ all_data table,
              run_loop now files ∅ = Ok all_data
              ∧ all_data ≠ ∅
              ∧ (∀ name wb, (name, wb) ∈ files →
                   is_Some (all_data !! _extract_period_from_filename now name))
              ∧ _create_output_csv all_data (now_date_stamp now) = Ok table
              ∧ run now files
                  = Completed
                      {| data_file := table;
                         metadata_file :=
                           _create_metadata_csv now (now_date_stamp now);
                         zip_archive :=
                           _create_zip_archive table
                             (_create_metadata_csv now (now_date_stamp now))
                             (now_date_stamp now) |}) as Hrun.
  { intros files Hfiles.
    destruct (run_loop_spec now files ∅) as (all_data & Hloop & _ & Hkeys).
    assert (all_data ≠ ∅) as Hne.
    { destruct files as [|[name wb] files]; [done|].
      destruct (Hkeys name wb) as [d Hd]; [left|].
      intros ->. by rewrite lookup_empty in Hd. }
    eexists all_data, _.
    split_and!; [done | done | done | by apply create_output_csv_spec |].
    unfold run. destruct files as [|f files]; [done|].
    rewrite Hloop. destruct (decide (all_data = ∅)) as [Hempty|_]; [done|].
    by rewrite (create_output_csv_spec _ _ Hne). }
  intros Hfiles. split_and!.
  - by apply Hrun.
  - destruct (Hrun excel_files Hfiles) as (? & ? & _ & _ & _ & _ & ->). done.
  - intros name e. split_and!.
    + apply process_excel_file_failed.
    + cbn [run_loop]. rewrite process_excel_file_failed, accumulate_spec.
      cbn [rbind]. rewrite lookup_empty. cbn [default from_option].
      by rewrite (left_id ∅ (∪)).
    + destruct (Hrun [(name, Raise e)]) as (? & ? & _ & _ & _ & _ & ->);
        [done | by eexists].
Qed.

Lemma run_completes_when_files_exist_witness :
  ∃ a, run sample_clock sample_files = Completed a.
Proof.
  assert (sample_files ≠ []) as Hne by (unfold sample_files; discriminate).
  destruct (run_completes_when_files_exist sample_clock sample_files Hne)
    as [(all_data & table & _ & _ & _ & _ & Hrun) _].
  eexists. exact Hrun.
Defined.

(** ** The model at work on the sample inputs *)

Example extract_sample_grid :
  _extract_from_sheet sample_grid "ETF"
    = Ok {[ "JTMD.ETF.PURCH.PROP.M" := "5"; "JTMD.ETF.BAL.PROP.M" := "12,3" ]}.
Proof. vm_compute. reflexivity. Qed.

Example period_of_earlier_marker :
  _extract_period_from_filename sample_clock "m1111_m2403.xlsx" = "2011-11".
Proof. reflexivity. Qed.

Example period_fallback :
  _extract_period_from_filename sample_clock "etf_march.xlsx" = "2026-11".
Proof. reflexivity. Qed.

Example fixed_table_sizes :
  length (relevant_mappings "ETF") = 28 ∧ length (relevant_mappings "REIT") = 28
  ∧ length fixed_mappings = 56 ∧ length column_mapping = 84.
Proof. by vm_compute. Qed.

Example run_sample_files :
  ∃ a, run sample_clock sample_files = Completed a
    ∧ (data_file a).1 = "JTMD_DATA_20261104.csv"
    ∧ map (take 2) (drop 2 (data_file a).2)
        = [ ["2023-12"; ""]; ["2024-03"; "12,3"] ]
    ∧ zip_archive a
        = ("JTMD_20261104.zip",
           ["JTMD_DATA_20261104.csv"; "JTMD_META_20261104.csv"]).
Proof. eexists. split; [by vm_compute|]. by vm_compute. Qed.

(** * Further properties of the extractor *)

(** ** The cells extraction reads *)

Lemma first_probe_ext g1 g2 base offsets :
  (∀ off, off ∈ offsets → cell_at g1 (base + off) 6 = cell_at g2 (base + off) 6) →
  first_probe g1 base offsets = first_probe g2 base offsets.
Proof.
  induction offsets as [|o rest IH]; intros H; cbn [first_probe]; [done|].
  assert (probed g1 (base + o) = probed g2 (base + o)) as ->
    by (unfold probed; rewrite (H o); [done | left]).
  rewrite IH; [done|]. intros off Hoff. apply H. by right.
Qed.

Lemma read_cells_fixed sheet_type code c :
  (code, c) ∈ relevant_mappings sheet_type →
  (row c, col c) ∈ read_cells sheet_type.
Proof.
  intros Hin. unfold read_cells. apply elem_of_app. left.
  apply list_elem_of_In, in_map_iff. exists (code, c).
  split; [done | by apply list_elem_of_In].
Qed.

Lemma read_cells_window sheet_type key info off :
  (key, info) ∈ category_structure → off ∈ search_offsets info →
  (base_row info + off, 6) ∈ read_cells sheet_type.
Proof.
  intros Hin Hoff. unfold read_cells. apply elem_of_app. right.
  apply list_elem_of_In, in_flat_map. exists (key, info).
  split; [by apply list_elem_of_In|].
  apply in_map_iff. exists off. split; [done | by apply list_elem_of_In].
Qed.

Lemma read_cells_bounds a :
  Forall (λ rc, rc.1 ≤ 60 ∧ (rc.2 = 4 ∨ rc.2 = 6)) (read_cells (asset_name a)).
Proof. destruct a; apply (bool_decide_unpack _); by vm_compute. Qed.

(** X1. The result of extraction depends on the grid only through the cells
    of [read_cells]: two grids that agree on them give the same result. These
    cells lie in rows 0 to 60 and in columns 4 and 6. *)
Theorem extract_reads_only_its_cells (g1 g2 : Grid) (a : AssetType) :
  Forall (λ rc, cell_at g1 rc.1 rc.2 = cell_at g2 rc.1 rc.2)
    (read_cells (asset_name a)) →
  _extract_from_sheet g1 (asset_name a) = _extract_from_sheet g2 (asset_name a)
  ∧ Forall (λ rc, rc.1 ≤ 60 ∧ (rc.2 = 4 ∨ rc.2 = 6)) (read_cells (asset_name a)).
Proof.
  intros Hagree. split; [|apply read_cells_bounds].
  pose proof (proj1 (Forall_forall _ _) Hagree) as H.
  destruct (extract_lookup g1 a) as (m1 & -> & Hm1).
  destruct (extract_lookup g2 a) as (m2 & -> & Hm2).
  f_equal. apply map_eq. intros code. rewrite Hm1, Hm2.
  assert (balance_value g1 (asset_name a) (keys category_structure) code
          = balance_value g2 (asset_name a) (keys category_structure) code) as ->.
  { unfold balance_value.
    destruct (List.find _ _) as [key|]; cbn [mbind option_bind]; [|done].
    destruct (dict_get category_structure key) as [info|] eqn:Hget;
      cbn [mbind option_bind]; [|done].
    apply dict_get_elem in Hget. apply first_probe_ext. intros off Hoff.
    apply (H (base_row info + off, 6)).
    by apply (read_cells_window _ key). }
  assert (dict_get (relevant_mappings (asset_name a)) code ≫= fixed_value g1
          = dict_get (relevant_mappings (asset_name a)) code ≫= fixed_value g2)
    as ->; [|done].
  destruct (dict_get _ code) as [c|] eqn:Hget; cbn [mbind option_bind]; [|done].
  apply dict_get_elem in Hget. unfold fixed_value.
  pose proof (H (row c, col c) (read_cells_fixed _ _ _ Hget)) as Hc.
  cbn [fst snd] in Hc. by rewrite Hc.
Qed.

Lemma extract_reads_only_its_cells_witness :
  _extract_from_sheet sample_grid "ETF"
    = _extract_from_sheet sample_grid_annotated "ETF".
Proof.
  refine (proj1 (extract_reads_only_its_cells sample_grid sample_grid_annotated
                   ETF _)).
  apply (bool_decide_unpack _). vm_compute. exact I.
Defined.

(** ** Integer cells *)

Lemma no_space_cons c s :
  PyStr.is_space c = false → no_space s = true → no_space (String c s) = true.
Proof. intros Hc Hs. cbn [no_space]. by rewrite Hc, Hs. Qed.

Lemma rstrip_no_space s : no_space s = true → PyStr.rstrip s = s.
Proof.
  induction s as [|c s IH]; cbn [no_space PyStr.rstrip]; [done|].
  intros [Hc Hs]%andb_true_iff. rewrite (IH Hs).
  destruct s; [|done]. by destruct (PyStr.is_space c).
Qed.

Lemma strip_no_space s : no_space s = true → PyStr.strip s = s.
Proof.
  intros Hs. unfold PyStr.strip. rewrite lstrip_id; [by apply rstrip_no_space|].
  destruct s as [|c s]; [done|]. cbn [no_space] in Hs.
  apply andb_true_iff in Hs as [Hc _]. cbn [head_trimmed].
  by destruct (PyStr.is_space c).
Qed.

Lemma string_of_uint_no_space d :
  no_space (NilEmpty.string_of_uint d) = true.
Proof.
  induction d; cbn [NilEmpty.string_of_uint]; [done|..];
    by apply no_space_cons.
Qed.

Lemma of_int_no_space n : no_space (PyStr.of_int n) = true.
Proof.
  unfold PyStr.of_int, NilZero.string_of_int, NilZero.string_of_uint.
  destruct (Z.to_int n) as [d|d].
  - destruct d; try apply string_of_uint_no_space; done.
  - apply no_space_cons; [done|].
    destruct d; try apply string_of_uint_no_space; done.
Qed.

Lemma of_int_nonempty n : PyStr.of_int n ≠ "".
Proof.
  unfold PyStr.of_int, NilZero.string_of_int, NilZero.string_of_uint.
  destruct (Z.to_int n) as [d|d]; [|done]. by destruct d.
Qed.

Lemma format_int n : _preserve_number_formatting (CInt n) = PyStr.of_int n.
Proof.
  unfold _preserve_number_formatting. cbn [isna in_none_or_empty orb py_str].
  apply strip_no_space, of_int_no_space.
Qed.

(** X2. An integer in the cell of a fixed-coordinate field is always emitted,
    as its decimal text: the value 0 gives ["0"] and is not taken for an
    empty cell. *)
Theorem integer_cell_emitted_in_decimal (g : Grid) (a : AssetType)
    (code : string) (c : coords) (n : Z) :
  (code, c) ∈ relevant_mappings (asset_name a) →
  cell_at g (row c) (col c) = Some (CInt n) →
  ∃ m, _extract_from_sheet g (asset_name a) = Ok m
    ∧ m !! code = Some (PyStr.of_int n)
    ∧ PyStr.of_int n ≠ ""
    ∧ PyStr.of_int 0 = "0".
Proof.
  intros Hin Hcell. destruct (extract_lookup g a) as (m & Hm & _).
  exists m. split_and!; [done | | apply of_int_nonempty | done].
  rewrite (extract_fixed_lookup _ _ _ _ _ Hm Hin). unfold fixed_value.
  rewrite Hcell. cbn [mbind option_bind]. rewrite format_int.
  pose proof (of_int_nonempty n) as Hne. by destruct (PyStr.of_int n).
Qed.

Lemma integer_cell_emitted_in_decimal_witness :
  ∃ m, _extract_from_sheet sample_grid "ETF" = Ok m
    ∧ m !! "JTMD.ETF.PURCH.PROP.M" = Some "5".
Proof.
  destruct (integer_cell_emitted_in_decimal sample_grid ETF
              "JTMD.ETF.PURCH.PROP.M" {| row := 14; col := 4 |} 5%Z)
    as (m & Hm & Hv & _).
  - apply list_elem_of_In. vm_compute. right. left. reflexivity.
  - reflexivity.
  - exists m. split; [exact Hm | exact Hv].
Defined.

(** X3. Formatting is idempotent: the formatted text of a cell, put back in
    a cell as text, formats to itself. *)
Theorem format_idempotent (cell : Cell) :
  _preserve_number_formatting (CStr (_preserve_number_formatting cell))
    = _preserve_number_formatting cell.
Proof.
  destruct (decide (_preserve_number_formatting cell = "")) as [->|Hne];
    [done|].
  destruct (format_nonempty cell Hne) as [_ Heq].
  revert Hne. rewrite Heq. intros Hne. unfold _preserve_number_formatting.
  cbn [isna py_str orb in_none_or_empty].
  destruct (PyStr.strip (py_str cell)) eqn:Hs; [done|].
  rewrite <- Hs. apply strip_idemp.
Qed.

(** ** Category keys *)

(** X4. The balance search raises [KeyError] exactly for a category key that
    is not one of the keys of the category table, which are case-sensitive;
    for every other key it returns a result. *)
Theorem find_balance_key_error (g : Grid) (key sheet_type : string) :
  (find_balance_in_category g key sheet_type = Raise KeyError
     ↔ key ∉ keys category_structure)
  ∧ (key ∈ keys category_structure →
       ∃ res, find_balance_in_category g key sheet_type = Ok res)
  ∧ find_balance_in_category g "prop" sheet_type = Raise KeyError.
Proof.
  assert (key ∈ keys category_structure →
            ∃ res, find_balance_in_category g key sheet_type = Ok res) as Hok.
  { intros [info Hinfo]%category_key_info.
    rewrite (find_balance_spec _ _ _ _ Hinfo). by eexists. }
  split_and!; [|done|done].
  split.
  - intros Hraise Hin. destruct (Hok Hin) as [res Hres].
    rewrite Hres in Hraise. discriminate Hraise.
  - intros Hout%dict_get_None.
    unfold find_balance_in_category, dict_getitem. by rewrite Hout.
Qed.

(** ** The codes of one sheet type *)

Lemma codes_of_NoDup a : NoDup (codes_of (asset_name a)).
Proof. destruct a; apply (bool_decide_unpack _); by vm_compute. Qed.

Lemma codes_of_prefix a :
  Forall (λ code, PyStr.startswith code ("JTMD." +:+ asset_name a +:+ ".") = true)
    (codes_of (asset_name a)).
Proof. destruct a; apply (bool_decide_unpack _); by vm_compute. Qed.

Lemma codes_of_length a : length (codes_of (asset_name a)) = 42.
Proof. by destruct a. Qed.

Lemma elem_of_codes_of sheet_type code :
  code ∈ codes_of sheet_type
  ↔ code ∈ keys (relevant_mappings sheet_type)
    ∨ code ∈ balance_code sheet_type <$> keys category_structure.
Proof. unfold codes_of. apply elem_of_app. Qed.

Lemma extract_codes_of g a m code :
  _extract_from_sheet g (asset_name a) = Ok m →
  is_Some (m !! code) → code ∈ codes_of (asset_name a).
Proof.
  intros Hm [v Hv]. apply elem_of_codes_of.
  destruct (extract_source _ _ _ _ _ Hm Hv)
    as [(c & Hc & _) | (key & info & Hk & -> & _)].
  - left. unfold keys. apply list_elem_of_fmap. by exists (code, c).
  - right. apply list_elem_of_fmap_2.
    unfold keys. apply list_elem_of_fmap. by exists (key, info).
Qed.

(** X5. A sheet yields only codes of its own family: every code extracted
    from an ETF sheet begins with [JTMD.ETF.], every code from a REIT sheet
    with [JTMD.REIT.], and a sheet yields at most 42 codes. *)
Theorem extracted_codes_of_own_family (g : Grid) (a : AssetType) :
  ∃ m, _extract_from_sheet g (asset_name a) = Ok m
    ∧ (∀ code, is_Some (m !! code) →
         code ∈ codes_of (asset_name a)
         ∧ PyStr.startswith code ("JTMD." +:+ asset_name a +:+ ".") = true)
    ∧ size m ≤ 42.
Proof.
  destruct (extract_lookup g a) as (m & Hm & _). exists m.
  split_and!; [done|..].
  - intros code Hcode.
    pose proof (extract_codes_of _ _ _ _ Hm Hcode) as Hin. split; [done|].
    by apply (proj1 (Forall_forall _ _) (codes_of_prefix a)).
  - rewrite <- (codes_of_length a), <- size_dom.
    rewrite <- (size_list_to_set (C := gset string) (codes_of (asset_name a)))
      by apply codes_of_NoDup.
    apply subseteq_size. intros code Hcode%elem_of_dom.
    apply elem_of_list_to_set. by apply (extract_codes_of g a m).
Qed.

(** ** Where the data of a file comes from *)

Lemma existsb_keys {V} (d : list (string * V)) k :
  existsb (String.eqb k) (keys d)
    = match dict_get d k with Some _ => true | None => false end.
Proof.
  unfold keys. induction d as [|[k' v'] d IH]; cbn [fmap list_fmap existsb dict_get fst];
    [done|].
  rewrite (String.eqb_sym k k'). by destruct (String.eqb k' k).
Qed.

(** [process_excel_file] in closed form. *)
Lemma process_excel_file_cases now name wb :
  process_excel_file now name wb =
    (_extract_period_from_filename now name,
     match wb with
     | Ok sheets =>
         match dict_get sheets "Value" with
         | Some (Ok df) =>
             match _extract_from_sheet df (sheet_type_of name) with
             | Ok data => data
             | Raise _ => ∅
             end
         | _ => ∅
         end
     | Raise _ => ∅
     end).
Proof.
  unfold process_excel_file. destruct wb as [sheets|e]; cbn [rbind]; [|done].
  rewrite existsb_keys.
  destruct (dict_get sheets "Value") as [[df|e]|];
    cbn [negb default from_option id rbind]; [|done..].
  by destruct (_extract_from_sheet df (sheet_type_of name)).
Qed.

(** X6. The period of a file is always the one derived from its name, and a
    file contributes data only through a sheet named exactly [Value] that
    could be read: without such a sheet, with a sheet named [value], or with
    a [Value] sheet whose reading fails, the result map is empty. *)
Theorem process_data_only_from_value_sheet (now : Clock) (name : string)
    (wb : Workbook) :
  (process_excel_file now name wb).1 = _extract_period_from_filename now name
  ∧ ((process_excel_file now name wb).2 ≠ ∅ →
       ∃ sheets df,
         wb = Ok sheets ∧ dict_get sheets "Value" = Some (Ok df)
         ∧ _extract_from_sheet df (sheet_type_of name)
             = Ok (process_excel_file now name wb).2)
  ∧ (∀ sheets, dict_get sheets "Value" = None →
       process_excel_file now name (Ok sheets)
         = (_extract_period_from_filename now name, ∅))
  ∧ (∀ sheets e, dict_get sheets "Value" = Some (Raise e) →
       process_excel_file now name (Ok sheets)
         = (_extract_period_from_filename now name, ∅))
  ∧ (∀ df, process_excel_file now name (Ok [("value", Ok df)])
             = (_extract_period_from_filename now name, ∅)).
Proof.
  split_and!.
  - by rewrite process_excel_file_cases.
  - rewrite process_excel_file_cases. cbn [snd].
    destruct wb as [sheets|e]; [|done].
    destruct (dict_get sheets "Value") as [[df|e]|] eqn:Hget; [|done..].
    destruct (_extract_from_sheet df (sheet_type_of name)) as [data|e] eqn:Hx;
      [|done].
    intros _. by exists sheets, df.
  - intros sheets Hget. by rewrite process_excel_file_cases, Hget.
  - intros sheets e Hget. by rewrite process_excel_file_cases, Hget.
  - intros df. by rewrite process_excel_file_cases.
Qed.

(** ** The invariant of the dataset *)

Lemma extract_code_in_catalog g a m code :
  _extract_from_sheet g (asset_name a) = Ok m →
  is_Some (m !! code) → code ∈ keys column_mapping.
Proof.
  intros Hm Hcode.
  pose proof (extract_codes_of _ _ _ _ Hm Hcode) as Hin.
  apply elem_of_codes_of in Hin as [Hin|Hin].
  - exact (proj1 (Forall_forall _ _) (fixed_codes_in_catalog a) code Hin).
  - exact (proj1 (Forall_forall _ _) (balance_codes_in_catalog a) code Hin).
Qed.

Lemma extract_value_formatted g a m code v :
  _extract_from_sheet g (asset_name a) = Ok m →
  m !! code = Some v →
  ∃ cell, _preserve_number_formatting cell = v ∧ v ≠ "".
Proof.
  intros Hm Hv.
  destruct (extract_source _ _ _ _ _ Hm Hv)
    as [(c & _ & Hfix) | (key & info & _ & _ & Hprobe)].
  - apply fixed_value_inv in Hfix as (cell & _ & Hfmt & Hne).
    exists cell. split; [exact Hfmt | exact Hne].
  - apply first_probe_inv in Hprobe as (off & _ & Hp & Hne).
    destruct (probed_cell _ _ _ Hp Hne) as (cell & _ & Hfmt).
    exists cell. split; [exact Hfmt | exact Hne].
Qed.

Lemma extract_well_formed g a m :
  _extract_from_sheet g (asset_name a) = Ok m → well_formed_result m.
Proof.
  intros Hm code v Hv.
  pose proof (extract_code_in_catalog _ _ _ _ Hm (mk_is_Some _ _ Hv)) as Hcode.
  destruct (extract_value_formatted _ _ _ _ _ Hm Hv) as (cell & <- & Hne).
  split; [exact Hcode|]. split; [exact Hne|].
  destruct (format_nonempty cell Hne) as [_ ->]. apply strip_idemp.
Qed.

Lemma process_well_formed now name wb :
  well_formed_result (process_excel_file now name wb).2.
Proof.
  rewrite process_excel_file_cases. cbn [snd].
  destruct wb as [sheets|e]; [|apply map_Forall_empty].
  destruct (dict_get sheets "Value") as [[df|e]|]; try apply map_Forall_empty.
  destruct (sheet_type_of_asset name) as [a ->].
  destruct (_extract_from_sheet df (asset_name a)) as [data|e] eqn:Hx;
    [|apply map_Forall_empty].
  by apply (extract_well_formed df a).
Qed.

Lemma accumulate_well_formed all_data period data :
  well_formed_dataset all_data → well_formed_result data →
  well_formed_dataset
    (<[period := data ∪ default ∅ (all_data !! period)]> all_data).
Proof.
  intros Hall Hdata. apply map_Forall_insert_2; [|done].
  apply map_Forall_union_2; [done|].
  destruct (all_data !! period) as [existing|] eqn:Hold; cbn [default from_option id].
  - by apply (Hall period).
  - apply map_Forall_empty.
Qed.

Lemma run_loop_well_formed now files all_data :
  well_formed_dataset all_data →
  ∃ m, run_loop now files all_data = Ok m ∧ well_formed_dataset m.
Proof.
  revert all_data. induction files as [|[name wb] files IH]; intros all_data Hall.
  - by exists all_data.
  - cbn [run_loop].
    pose proof (process_well_formed now name wb) as Hdata.
    destruct (process_excel_file now name wb) as [p d]. cbn [snd] in Hdata.
    rewrite accumulate_spec. cbn [rbind].
    apply IH. by apply accumulate_well_formed.
Qed.

(** X7. The loop of [run] keeps the dataset well formed: when every code of
    the dataset is a catalog code and every value is non-empty and trimmed
    before the loop, the loop returns a dataset of which the same holds,
    whatever the files are. The empty dataset [run] starts from is well
    formed. *)
Theorem run_loop_keeps_dataset_well_formed (now : Clock)
    (excel_files : list (string * Workbook))
    (all_data : gmap string (gmap string string)) :
  well_formed_dataset all_data →
  (∃ m, run_loop now excel_files all_data = Ok m ∧ well_formed_dataset m)
  ∧ well_formed_dataset ∅.
Proof.
  intros Hall. split; [by apply run_loop_well_formed | apply map_Forall_empty].
Qed.

Lemma run_loop_keeps_dataset_well_formed_witness :
  ∃ m, run_loop sample_clock sample_files sample_dataset = Ok m
    ∧ well_formed_dataset m.
Proof.
  refine (proj1 (run_loop_keeps_dataset_well_formed sample_clock sample_files
                   sample_dataset _)).
  apply (bool_decide_unpack _). vm_compute. exact I.
Defined.

(** ** The periods of a run *)

Lemma run_loop_dom now files all_data :
  ∃ m, run_loop now files all_data = Ok m
    ∧ dom m = dom all_data ∪ periods_of now files.
Proof.
  unfold periods_of.
  revert all_data. induction files as [|[name wb] files IH]; intros all_data.
  - exists all_data. split; [done|]. cbn [fmap list_fmap list_to_set foldr].
    by rewrite (right_id_L ∅ (∪)).
  - cbn [run_loop]. rewrite process_excel_file_cases, accumulate_spec.
    cbn [rbind].
    match goal with
    | |- context [run_loop now files ?d] => destruct (IH d) as (m & -> & Hdom)
    end.
    exists m. split; [done|]. rewrite Hdom, dom_insert_L.
    rewrite fmap_cons, list_to_set_cons. cbn [fst].
    by rewrite (assoc_L (∪)), (comm_L (∪) _ (dom all_data)).
Qed.

Lemma run_completed now files :
  files ≠ [] →
  ∃ all_data,
    run_loop now files ∅ = Ok all_data
    ∧ all_data ≠ ∅
    ∧ run now files
        = Completed
            {| data_file :=
                 ("JTMD_DATA_" +:+ now_date_stamp now +:+ ".csv",
                  ("" :: keys column_mapping) :: ("" :: values column_mapping)
                  :: map (λ item, data_row item.1 item.2)
                       (sorted_items all_data));
               metadata_file := _create_metadata_csv now (now_date_stamp now);
               zip_archive :=
                 _create_zip_archive
                   ("JTMD_DATA_" +:+ now_date_stamp now +:+ ".csv",
                    ("" :: keys column_mapping) :: ("" :: values column_mapping)
                    :: map (λ item, data_row item.1 item.2)
                         (sorted_items all_data))
                   (_create_metadata_csv now (now_date_stamp now))
                   (now_date_stamp now) |}.
Proof.
  intros Hfiles.
  destruct (run_loop_spec now files ∅) as (all_data & Hloop & _ & Hkeys).
  assert (all_data ≠ ∅) as Hne.
  { destruct files as [|[name wb] files]; [done|].
    destruct (Hkeys name wb) as [d Hd]; [left|].
    intros ->. by rewrite lookup_empty in Hd. }
  exists all_data. split_and!; [done..|].
  unfold run. destruct files as [|f files]; [done|].
  rewrite Hloop. destruct (decide (all_data = ∅)) as [Hempty|_]; [done|].
  by rewrite (create_output_csv_spec _ _ Hne).
Qed.

Lemma data_row_period item_period item_data :
  hd "" (data_row item_period item_data) = item_period.
Proof. reflexivity. Qed.

(** X8. A run over at least one file writes one period row for each distinct
    period derived from the file names, however many files share a period:
    the number of period rows is the number of distinct periods, and the
    first fields of the period rows are exactly these periods. *)
Theorem run_one_row_per_distinct_period (now : Clock)
    (excel_files : list (string * Workbook)) :
  excel_files ≠ [] →
  ∃ a codes_row descriptions_row rows,
    run now excel_files = Completed a
    ∧ (data_file a).2 = codes_row :: descriptions_row :: rows
    ∧ length rows = size (periods_of now excel_files)
    ∧ (∀ p, p ∈ map (hd "") rows ↔ p ∈ periods_of now excel_files)
    ∧ NoDup (map (hd "") rows).
Proof.
  intros Hfiles. destruct (run_completed now excel_files Hfiles)
    as (all_data & Hloop & _ & ->).
  destruct (run_loop_dom now excel_files ∅) as (m & Hloop' & Hdom).
  rewrite Hloop in Hloop'. injection Hloop' as <-.
  rewrite dom_empty_L, (left_id_L ∅ (∪)) in Hdom.
  assert (map (hd "") (map (λ item, data_row item.1 item.2)
                         (sorted_items all_data))
          = (sorted_items all_data).*1) as Hfirst.
  { rewrite map_map. apply map_ext. by intros [p d]. }
  eexists _, _, _, _. split_and!; [done | done | ..].
  - rewrite length_map, sorted_items_Permutation, length_map_to_list.
    by rewrite <- Hdom, size_dom.
  - intros p. rewrite Hfirst, <- Hdom, sorted_items_Permutation.
    rewrite elem_of_dom. split.
    + intros ([p' d] & -> & Hin%elem_of_map_to_list)%list_elem_of_fmap.
      by exists d.
    + intros [d Hd]. apply list_elem_of_fmap. exists (p, d).
      split; [done | by apply elem_of_map_to_list].
  - rewrite Hfirst, sorted_items_Permutation. apply NoDup_fst_map_to_list.
Qed.

Lemma run_one_row_per_distinct_period_witness :
  ∃ a rows, run sample_clock (sample_files ++ sample_files) = Completed a
    ∧ drop 2 (data_file a).2 = rows
    ∧ length rows = size (periods_of sample_clock (sample_files ++ sample_files)).
Proof.
  assert (sample_files ++ sample_files ≠ []) as Hne
    by (unfold sample_files; discriminate).
  destruct (run_one_row_per_distinct_period sample_clock
              (sample_files ++ sample_files) Hne)
    as (a & r1 & r2 & rows & Hrun & Htable & Hlen & _).
  exists a, rows. split; [exact Hrun|]. split; [|exact Hlen].
  rewrite Htable. reflexivity.
Defined.

(** ** The order of the files *)










(** ** The composer on the empty dataset *)

(** X10. The data table composer raises [KeyError] exactly on the empty
    dataset, the case the guard of [run] keeps from it, and returns a table
    on every other dataset. *)
Theorem create_output_csv_fails_only_on_empty
    (all_data : gmap string (gmap string string)) (timestamp : string) :
  (_create_output_csv all_data timestamp = Raise KeyError ↔ all_data = ∅)
  ∧ (all_data ≠ ∅ → ∃ table, _create_output_csv all_data timestamp = Ok table).
Proof.
  assert (_create_output_csv ∅ timestamp = Raise KeyError) as Hempty.
  { unfold _create_output_csv, sorted_items. by rewrite map_to_list_empty. }
  split.
  - split; [|by intros ->].
    destruct (decide (all_data = ∅)) as [|Hne]; [done|].
    by rewrite (create_output_csv_spec _ _ Hne).
  - intros Hne. rewrite (create_output_csv_spec _ _ Hne). by eexists.
Qed.

(** ** What a period row keeps *)

Lemma map_eq_elem {A B} (f g : A → B) (l : list A) x :
  map f l = map g l → x ∈ l → f x = g x.
Proof.
  induction l as [|y l IH]; cbn [map].
  - intros _ H. by apply elem_of_nil in H.
  - intros [= Hy Hl] [->|Hin]%elem_of_cons; [done | by apply IH].
Qed.

Lemma data_row_lookup_code p1 p2 (d1 d2 : gmap string string) code :
  data_row p1 d1 = data_row p2 d2 → code ∈ keys column_mapping →
  default "" (d1 !! code) = default "" (d2 !! code).
Proof.
  unfold data_row. generalize (keys column_mapping). intros cols.
  intros [= _ Hmap] Hcode.
  by apply (map_eq_elem _ _ cols code Hmap).
Qed.

(** X11. A period row determines the period and the result map it was made
    from: two well-formed result maps (catalog codes, non-empty values) that
    give the same row are equal, and so are the periods. *)
Theorem data_row_injective (p1 p2 : string) (d1 d2 : gmap string string) :
  well_formed_result d1 → well_formed_result d2 →
  data_row p1 d1 = data_row p2 d2 →
  p1 = p2 ∧ d1 = d2.
Proof.
  intros Hd1 Hd2 Hrow. split; [by injection Hrow|].
  apply map_eq. intros code.
  destruct (d1 !! code) as [v1|] eqn:H1, (d2 !! code) as [v2|] eqn:H2; [| | |done].
  - destruct (Hd1 code v1 H1) as (Hcode & _ & _).
    pose proof (data_row_lookup_code _ _ _ _ _ Hrow Hcode) as Heq.
    rewrite H1, H2 in Heq. cbn [default from_option id] in Heq. by rewrite Heq.
  - destruct (Hd1 code v1 H1) as (Hcode & Hne & _).
    pose proof (data_row_lookup_code _ _ _ _ _ Hrow Hcode) as Heq.
    rewrite H1, H2 in Heq. cbn [default from_option id] in Heq. by destruct Hne.
  - destruct (Hd2 code v2 H2) as (Hcode & Hne & _).
    pose proof (data_row_lookup_code _ _ _ _ _ Hrow Hcode) as Heq.
    rewrite H1, H2 in Heq. cbn [default from_option id] in Heq. by destruct Hne.
Qed.

Lemma data_row_injective_witness :
  "2024-03" = "2024-03"
  ∧ ({[ "JTMD.ETF.BAL.PROP.M" := "12,3" ]} : gmap string string)
    = {[ "JTMD.ETF.BAL.PROP.M" := "12,3" ]}.
Proof.
  apply (data_row_injective "2024-03" "2024-03"
           {[ "JTMD.ETF.BAL.PROP.M" := "12,3" ]}
           {[ "JTMD.ETF.BAL.PROP.M" := "12,3" ]}).
  - apply (bool_decide_unpack _). vm_compute. exact I.
  - apply (bool_decide_unpack _). vm_compute. exact I.
  - reflexivity.
Defined.

(** ** The metadata table and the names of the artifacts *)





Lemma string_length_app s1 s2 :
  String.length (s1 +:+ s2) = String.length s1 + String.length s2.
Proof. induction s1 as [|c s1 IH]; simpl; [done | by f_equal]. Qed.

(** X13. The names of the three artifacts of a completed run are fixed by the
    date stamp alone: [JTMD_DATA_<stamp>.csv], [JTMD_META_<stamp>.csv] and
    [JTMD_<stamp>.zip], the archive holding the two tables under these names.
    The three names differ from one another for every stamp, so no artifact
    overwrites another. *)
Theorem artifact_names_from_date_stamp (now : Clock)
    (excel_files : list (string * Workbook)) :
  excel_files ≠ [] →
  ∃ a,
    run now excel_files = Completed a
    ∧ (data_file a).1 = "JTMD_DATA_" +:+ now_date_stamp now +:+ ".csv"
    ∧ (metadata_file a).1 = "JTMD_META_" +:+ now_date_stamp now +:+ ".csv"
    ∧ zip_archive a
        = ("JTMD_" +:+ now_date_stamp now +:+ ".zip",
           [ (data_file a).1; (metadata_file a).1 ])
    ∧ (data_file a).1 ≠ (metadata_file a).1
    ∧ (zip_archive a).1 ≠ (data_file a).1
    ∧ (zip_archive a).1 ≠ (metadata_file a).1.
Proof.
  intros Hfiles.
  destruct (run_completed now excel_files Hfiles) as (all_data & _ & _ & ->).
  eexists. split; [done|]. cbn [data_file metadata_file zip_archive].
  unfold _create_zip_archive, _create_metadata_csv. cbn [fst snd].
  split_and!; [done | done | done | ..].
  - intros H. discriminate H.
  - intros H. apply (f_equal String.length) in H.
    rewrite !string_length_app in H. cbn [String.length] in H. lia.
  - intros H. apply (f_equal String.length) in H.
    rewrite !string_length_app in H. cbn [String.length] in H. lia.
Qed.

Lemma artifact_names_from_date_stamp_witness :
  ∃ a, run sample_clock sample_files = Completed a
    ∧ zip_archive a
        = ("JTMD_20261104.zip",
           [ "JTMD_DATA_20261104.csv"; "JTMD_META_20261104.csv" ]).
Proof.
  assert (sample_files ≠ []) as Hne by (unfold sample_files; discriminate).
  destruct (artifact_names_from_date_stamp sample_clock sample_files Hne)
    as (a & Hrun & Hd & Hm & Hz & _).
  exists a. split; [exact Hrun|]. rewrite Hz, Hd, Hm. reflexivity.
Defined.

(** ** Where a period key comes from *)

Lemma match_here_inv s groups :
  match_here s = Some groups →
  ∃ y1 y2 m1 m2 post,
    s = String "m" (String y1 (String y2 (String m1 (String m2 post))))
    ∧ PyStr.is_digit y1 = true ∧ PyStr.is_digit y2 = true
    ∧ PyStr.is_digit m1 = true ∧ PyStr.is_digit m2 = true
    ∧ groups = (String y1 (String y2 ""), String m1 (String m2 "")).
Proof.
  destruct s as [|c0 [|y1 [|y2 [|m1 [|m2 post]]]]]; cbn [match_here]; try done.
  destruct (_ && _) eqn:Hb; [|done]. intros [= <-].
  apply andb_true_iff in Hb as [Hb Hm2]. apply andb_true_iff in Hb as [Hb Hm1].
  apply andb_true_iff in Hb as [Hb Hy2]. apply andb_true_iff in Hb as [Hb Hy1].
  apply Ascii.eqb_eq in Hb as ->.
  exists y1, y2, m1, m2, post. split_and!; done.
Qed.

Lemma match_here_prefix_None c pre t :
  match_here (String c (pre +:+ t)) = None → match_here (String c pre) = None.
Proof. by destruct pre as [|y1 [|y2 [|m1 [|m2 rest]]]]. Qed.

Lemma re_search_inv s groups :
  re_search s = Some groups →
  ∃ pre t, s = pre +:+ t ∧ match_here t = Some groups ∧ re_search pre = None.
Proof.
  induction s as [|c s IH]; cbn [re_search].
  - cbn [match_here]. discriminate.
  - destruct (match_here (String c s)) as [g|] eqn:Hhere.
    + intros [= ->]. by exists "", (String c s).
    + intros (pre & t & -> & Ht & Hpre)%IH.
      exists (String c pre), t. split_and!; [done..|].
      cbn [re_search]. by rewrite (match_here_prefix_None _ _ _ Hhere).
Qed.

(** X14. The period key of a file is never made up: it is the year and month
    of the clock when the lowercased name holds no marker, and otherwise the
    key [20YY-MM] of the leftmost marker [mYYMM] of the lowercased name, 7
    characters long. The month is not checked against 01-12: [m2499] gives
    [2024-99]. *)
Theorem period_key_from_leftmost_marker_or_clock (now : Clock)
    (filename : string) :
  ((re_search (PyStr.lower filename) = None
    ∧ _extract_period_from_filename now filename = now_year_month now)
   ∨ ∃ pre y1 y2 m1 m2 post,
       PyStr.lower filename
         = pre +:+ String "m" (String y1 (String y2 (String m1 (String m2 post))))
       ∧ PyStr.is_digit y1 = true ∧ PyStr.is_digit y2 = true
       ∧ PyStr.is_digit m1 = true ∧ PyStr.is_digit m2 = true
       ∧ re_search pre = None
       ∧ _extract_period_from_filename now filename = period_key y1 y2 m1 m2
       ∧ String.length (_extract_period_from_filename now filename) = 7)
  ∧ _extract_period_from_filename now "etf_m2499.xls" = "2024-99".
Proof.
  split; [|done]. unfold _extract_period_from_filename.
  destruct (re_search (PyStr.lower filename)) as [[year_suffix month]|] eqn:Hs.
  - right. apply re_search_inv in Hs as (pre & t & Hname & Ht & Hpre).
    apply match_here_inv in Ht
      as (y1 & y2 & m1 & m2 & post & -> & Hy1 & Hy2 & Hm1 & Hm2 & [= -> ->]).
    by exists pre, y1, y2, m1, m2, post.
  - by left.
Qed.

(** ** Period keys in time order *)

Lemma ascii_compare_code a b :
  match Ascii.compare a b with
  | Eq => PyStr.code a = PyStr.code b
  | Lt => PyStr.code a < PyStr.code b
  | Gt => PyStr.code b < PyStr.code a
  end.
Proof.
  unfold Ascii.compare, PyStr.code, nat_of_ascii.
  destruct (N.compare_spec (N_of_ascii a) (N_of_ascii b)) as [->| |]; lia.
Qed.

Lemma is_digit_code c : PyStr.is_digit c = true → 48 ≤ PyStr.code c ≤ 57.
Proof.
  unfold PyStr.is_digit. intros [H1 H2]%andb_true_iff.
  apply Nat.leb_le in H1, H2. lia.
Qed.

(** X15. For period keys made from markers the order of the keys as strings,
    the order of the rows of the data table, is the order of the markers as
    numbers YYMM, that is the order in time within the century. *)
Theorem period_keys_in_time_order (y1 y2 m1 m2 y1' y2' m1' m2' : ascii) :
  PyStr.is_digit y1 = true → PyStr.is_digit y2 = true →
  PyStr.is_digit m1 = true → PyStr.is_digit m2 = true →
  PyStr.is_digit y1' = true → PyStr.is_digit y2' = true →
  PyStr.is_digit m1' = true → PyStr.is_digit m2' = true →
  String.le (period_key y1 y2 m1 m2) (period_key y1' y2' m1' m2')
  ↔ marker_number y1 y2 m1 m2 ≤ marker_number y1' y2' m1' m2'.
Proof.
  intros Hy1%is_digit_code Hy2%is_digit_code Hm1%is_digit_code
    Hm2%is_digit_code Hy1'%is_digit_code Hy2'%is_digit_code
    Hm1'%is_digit_code Hm2'%is_digit_code.
  unfold String.le, String.leb, period_key, marker_number, digit_value.
  change (("20" +:+ String y1 (String y2 "") +:+ "-" +:+ String m1 (String m2 "")
           ?= "20" +:+ String y1' (String y2' "") +:+ "-"
              +:+ String m1' (String m2' ""))%string)
    with (match Ascii.compare y1 y1' with
          | Eq => match Ascii.compare y2 y2' with
                  | Eq => match Ascii.compare m1 m1' with
                          | Eq => match Ascii.compare m2 m2' with
                                  | Eq => Eq
                                  | o => o
                                  end
                          | o => o
                          end
                  | o => o
                  end
          | o => o
          end).
  pose proof (ascii_compare_code y1 y1') as C1.
  pose proof (ascii_compare_code y2 y2') as C2.
  pose proof (ascii_compare_code m1 m1') as C3.
  pose proof (ascii_compare_code m2 m2') as C4.
  destruct (Ascii.compare y1 y1'), (Ascii.compare y2 y2'),
    (Ascii.compare m1 m1'), (Ascii.compare m2 m2');
    cbn [Is_true]; split; intros H; try exact I; try lia; try contradiction.
Qed.

Lemma period_keys_in_time_order_witness :
  String.le "2023-12" "2024-03" ↔ 2312 ≤ 2403.
Proof.
  exact (period_keys_in_time_order "2" "3" "1" "2" "2" "4" "0" "3"
           eq_refl eq_refl eq_refl eq_refl eq_refl eq_refl eq_refl eq_refl).
Defined.

(** * Properties of the printing helper and of the downloader *)

(** ** [safe_print] *)






(** ** The download log *)

(** X17. The download log survives a save and a load: loading the array that
    [_save_download_log] writes gives back the set saved; the array is in
    ascending order without repetition; saving what was loaded from an array
    keeps exactly its names; a missing log file loads as the empty set. *)
Theorem download_log_round_trip (downloaded_files_log : gset string)
    (names : list string) :
  _load_download_log (Some (_save_download_log downloaded_files_log))
    = downloaded_files_log
  ∧ StronglySorted String.le (_save_download_log downloaded_files_log)
  ∧ NoDup (_save_download_log downloaded_files_log)
  ∧ (∀ x, x ∈ _save_download_log (_load_download_log (Some names)) ↔ x ∈ names)
  ∧ _load_download_log None = ∅.
Proof.
  unfold _load_download_log, _save_download_log. split_and!.
  - apply set_eq. intros x.
    by rewrite elem_of_list_to_set, merge_sort_Permutation, elem_of_elements.
  - apply (StronglySorted_merge_sort String.le).
  - rewrite merge_sort_Permutation. apply NoDup_elements.
  - intros x.
    by rewrite merge_sort_Permutation, elem_of_elements, elem_of_list_to_set.
  - done.
Qed.

(** ** [run_download] *)

Lemma download_part_spec file_name download st st' :
  download_part file_name download st = Ok st' →
  (download = Ok true
   ∧ downloaded_files_log st' = {[ file_name ]} ∪ downloaded_files_log st
   ∧ files_downloaded_this_run st' = files_downloaded_this_run st + 1)
  ∨ (download = Ok false ∧ st' = st).
Proof.
  unfold download_part. destruct download as [[|]|e]; cbn [rbind]; [| |done].
  - intros [= <-]. by left.
  - intros [= <-]. by right.
Qed.

Lemma visit_step_spec v st st' :
  visit_step v st = Ok st' →
  downloaded_files_log st ⊆ downloaded_files_log st'
  ∧ (∀ x, x ∈ downloaded_files_log st' →
       x ∈ downloaded_files_log st ∨ ∃ on_disk, v = Link x on_disk (Ok true))
  ∧ files_downloaded_this_run st ≤ files_downloaded_this_run st'
  ∧ (files_downloaded_this_run st < files_downloaded_this_run st' → available v).
Proof.
  destruct v as [|e|file_name on_disk download]; cbn [visit_step].
  - intros [= <-]. split_and!; [done | by left | done | lia].
  - done.
  - assert (download_part file_name download st = Ok st' →
            downloaded_files_log st ⊆ downloaded_files_log st'
            ∧ (∀ x, x ∈ downloaded_files_log st' →
                 x ∈ downloaded_files_log st
                 ∨ ∃ od, Link file_name on_disk download = Link x od (Ok true))
            ∧ files_downloaded_this_run st ≤ files_downloaded_this_run st'
            ∧ (files_downloaded_this_run st < files_downloaded_this_run st' →
                 available (Link file_name on_disk download))) as Hpart.
    { intros [(-> & Hlog & Hcount)|(-> & ->)]%download_part_spec.
      - rewrite Hlog, Hcount. split_and!.
        + apply union_subseteq_r.
        + intros x [->%elem_of_singleton|Hx]%elem_of_union;
            [right; by exists on_disk | by left].
        + lia.
        + intros _. by right.
      - split_and!; [done | by left | done | lia]. }
    destruct (decide (file_name ∈ downloaded_files_log st)) as [Hin|Hout];
      [|done].
    destruct on_disk; cbn [negb]; [|done].
    intros [= <-]. cbn [downloaded_files_log files_downloaded_this_run].
    split_and!; [done | by left | lia |]. intros _. by left.
Qed.

Lemma download_loop_spec site categories st :
  let st' := (download_loop site categories st).1 in
  downloaded_files_log st ⊆ downloaded_files_log st'
  ∧ (∀ x, x ∈ downloaded_files_log st' →
       x ∈ downloaded_files_log st
       ∨ ∃ category_name file_filter on_disk,
           (category_name, file_filter) ∈ categories
           ∧ visit site category_name file_filter = Link x on_disk (Ok true))
  ∧ files_downloaded_this_run st ≤ files_downloaded_this_run st'
  ∧ (files_downloaded_this_run st < files_downloaded_this_run st' →
       ∃ category_name file_filter,
         (category_name, file_filter) ∈ categories
         ∧ available (visit site category_name file_filter)).
Proof.
  revert st. induction categories as [|[category_name file_filter] rest IH];
    intros st; cbn [download_loop].
  - cbn [fst]. split_and!; [done | by left | done | lia].
  - destruct (visit_step (visit site category_name file_filter) st)
      as [st1|e] eqn:Hstep.
    + apply visit_step_spec in Hstep as (Hsub & Hnew & Hle & Hav).
      destruct (IH st1) as (Hsub' & Hnew' & Hle' & Hav').
      split_and!.
      * by etrans.
      * intros x [Hx|(c & f & od & Hc & Hv)]%Hnew'.
        -- destruct (Hnew x Hx) as [?|[od Hv]]; [by left|].
           right. exists category_name, file_filter, od. split; [left | done].
        -- right. exists c, f, od. split; [by right | done].
      * lia.
      * intros Hlt.
        destruct (decide (files_downloaded_this_run st
                          < files_downloaded_this_run st1)) as [H1|H1].
        -- exists category_name, file_filter. split; [left | by apply Hav].
        -- destruct Hav' as (c & f & Hc & Hv); [lia|].
           exists c, f. split; [by right | done].
    + cbn [fst]. split_and!; [done | by left | done | lia].
Qed.

(** X18. The download log only grows, and only by files that were
    downloaded: whenever [run_download] writes the log, every name loaded
    from the old log is in the new one, and a name that is new in the log is
    the file name of the link of one of the two categories whose download
    succeeded. *)
Theorem download_log_grows_by_downloads (target_month_num : string)
    (log_file : option (list string)) (site : Site) (ready : bool)
    (written : list string) :
  run_download target_month_num log_file site = (ready, Some written) →
  (∀ x, x ∈ _load_download_log log_file → x ∈ written)
  ∧ (∀ x, x ∈ written →
       x ∈ _load_download_log log_file
       ∨ ∃ category_name file_filter on_disk,
           (category_name, file_filter) ∈ categories_to_process
           ∧ visit site category_name file_filter = Link x on_disk (Ok true)).
Proof.
  unfold run_download. destruct (negb _); [done|].
  assert (∀ st raised,
    (st, raised)
      = match startup site with
        | Some e => ({| downloaded_files_log := _load_download_log log_file;
                        files_downloaded_this_run := 0 |}, Some e)
        | None => download_loop site categories_to_process
                    {| downloaded_files_log := _load_download_log log_file;
                       files_downloaded_this_run := 0 |}
        end →
    _load_download_log log_file ⊆ downloaded_files_log st
    ∧ (∀ x, x ∈ downloaded_files_log st →
         x ∈ _load_download_log log_file
         ∨ ∃ category_name file_filter on_disk,
             (category_name, file_filter) ∈ categories_to_process
             ∧ visit site category_name file_filter = Link x on_disk (Ok true)))
    as Hstate.
  { intros st raised. destruct (startup site) as [e|].
    - intros [= -> ->]. split; [done | by left].
    - pose proof (download_loop_spec site categories_to_process
                    {| downloaded_files_log := _load_download_log log_file;
                       files_downloaded_this_run := 0 |}) as Hloop.
      destruct (download_loop _ _ _) as [st1 r1]. cbn [fst] in Hloop.
      intros [= -> ->]. destruct Hloop as (Hsub & Hnew & _). by split. }
  destruct (match startup site with Some e => _ | None => _ end)
    as [st raised] eqn:Hrun.
  destruct (Hstate st raised eq_refl) as [Hsub Hnew].
  assert (Some (_save_download_log (downloaded_files_log st)) = Some written →
          (∀ x, x ∈ _load_download_log log_file → x ∈ written)
          ∧ (∀ x, x ∈ written →
               x ∈ _load_download_log log_file
               ∨ ∃ category_name file_filter on_disk,
                   (category_name, file_filter) ∈ categories_to_process
                   ∧ visit site category_name file_filter
                       = Link x on_disk (Ok true))) as Hwritten.
  { intros [= <-]. unfold _save_download_log. split.
    - intros x Hx. rewrite merge_sort_Permutation, elem_of_elements.
      by apply Hsub.
    - intros x. rewrite merge_sort_Permutation, elem_of_elements. apply Hnew. }
  destruct raised; intros [= _ Hw]; apply Hwritten; by rewrite Hw.
Qed.

Lemma download_log_grows_by_downloads_witness :
  "reit_m2402.xls" ∈ ["etf_m2403.xls"; "reit_m2402.xls"].
Proof.
  apply (proj1 (download_log_grows_by_downloads "03" (Some ["reit_m2402.xls"])
                  sample_site true ["etf_m2403.xls"; "reit_m2402.xls"]
                  eq_refl) "reit_m2402.xls").
  unfold _load_download_log. apply elem_of_list_to_set. left.
Defined.




Example run_download_sample_site :
  run_download "03" (Some ["reit_m2402.xls"]) sample_site
    = (true, Some ["etf_m2403.xls"; "reit_m2402.xls"])
  ∧ run_download "3" (Some ["reit_m2402.xls"]) sample_site = (false, None).
Proof. split; reflexivity. Qed.
